(** * A shallow embedding of opine's [Response] (src/response.ts) and of the
    static file server (src/middleware/serveStatic.ts).

    JavaScript strings are lists of UTF-16 code units; a [Headers] object is
    an association list keyed by lower-cased names (the WHATWG [Headers]
    class lower-cases every name it is given).  A method of [Response] is an
    action of a reader/state/error monad: it reads the request, the
    application settings and the file system, it updates the response
    (status, headers, body slot) together with a log of the transmissions
    made through [req.respond] and of the file-system calls, and it may throw. *)

From Stdlib Require Import ZArith List String Ascii Bool Lia.
Import ListNotations.
Set Warnings "-register-all".


(** ** Strings *)

Definition jstr := list Z.

Definition js (s : string) : jstr :=
  map (fun c => Z.of_nat (nat_of_ascii c)) (list_ascii_of_string s).

Definition jeqb (a b : jstr) : bool :=
  if list_eq_dec Z.eq_dec a b then true else false.

(** truthiness of a string *)
Definition is_empty (s : jstr) : bool :=
  match s with [] => true | _ => false end.

(** [String.prototype.toLowerCase] on ASCII letters (a header name is an
    HTTP token, so it holds no other letters) *)
Definition lower_unit (c : Z) : Z :=
  if (65 <=? c)%Z && (c <=? 90)%Z then (c + 32)%Z else c.

Definition toLowerCase (s : jstr) : jstr := map lower_unit s.

Definition startsWith (s p : jstr) : bool := jeqb (firstn (List.length p) s) p.

Definition endsWith (s p : jstr) : bool :=
  (List.length p <=? List.length s)%nat && jeqb (skipn (List.length s - List.length p) s) p.

(** [s.substr(-1)] *)
Definition substr_last (s : jstr) : jstr :=
  match rev s with [] => [] | c :: _ => [c] end.

(** the double quote, which a Rocq string literal cannot hold alone *)
Definition dq : jstr := [34%Z].

(** ** Headers *)

Definition Headers := list (jstr * jstr).

Definition h_get (h : Headers) (name : jstr) : option jstr :=
  option_map snd (find (fun p => jeqb (fst p) (toLowerCase name)) h).

Definition h_delete (h : Headers) (name : jstr) : Headers :=
  filter (fun p => negb (jeqb (fst p) (toLowerCase name))) h.

(** the entry store of [Headers.set]: the value is kept as given, which is
    what [Headers.set] does once its checks pass on a value that needs no
    trimming (see [headers_set] below) *)
Definition h_set (h : Headers) (name v : jstr) : Headers :=
  h_delete h name ++ [(toLowerCase name, v)].


(** ** JavaScript values, bodies and files *)

Inductive jsval : Type :=
| JUndefined
| JNull
| JBool (b : bool)
| JNum (n : Z)
| JStr (s : jstr)
| JBytes (bs : list Z)                   (* a Uint8Array *)
| JFun (id : nat)
| JObj (props : list (jstr * jsval)).

Definition prop (props : list (jstr * jsval)) (k : jstr) : jsval :=
  match find (fun p => jeqb (fst p) k) props with
  | Some (_, v) => v
  | None => JUndefined
  end.

(** [DenoResponseBody]: a string, a Uint8Array or a [Deno.Reader] *)
Inductive chunk : Type :=
| CStr (s : jstr)
| CBytes (bs : list Z)
| CReader (props : list (jstr * jsval)).

(** truthiness of a body: only the empty string is falsy *)
Definition chunk_truthy (c : chunk) : bool :=
  match c with CStr s => negb (is_empty s) | _ => true end.

(** [Deno.FileInfo]; [mtime] already rendered by [toUTCString] *)
Record FileInfo := mkFileInfo {
  isDirectory : bool;
  size : Z;
  mtime : option jstr
}.

(** the argument of [Response.etag] *)
Inductive etag_input : Type :=
| EStr (s : jstr)
| EBytes (bs : list Z)
| EFile (fi : FileInfo).

(** [typeof (chunk as any).length] *)
Definition typeof_length (c : etag_input) : jstr :=
  match c with
  | EStr _ | EBytes _ => js "number"
  | EFile _ => js "undefined"
  end.

(** ** Request, application settings and errors *)

(** a parsed query value: a string, an array of values, or a nested object *)
Inductive qval : Type :=
| QStr (s : jstr)
| QArr (l : list qval)
| QObj.

Record ParsedURL := mkParsedURL {
  pu_pathname : jstr;
  pu_path : option jstr;
  pu_other : jstr
}.

Record Request := mkRequest {
  method : jstr;
  fresh : bool;
  accept : option jstr;
  query : list (jstr * qval);
  url_pathname : jstr;         (* [parseUrl(req).pathname], relative to the mount *)
  original_url : ParsedURL     (* [originalUrl(req)] *)
}.

(** the settings of [app.get] that the response reads: ["etag fn"] when it
    is a function, and ["jsonp callback name"] *)
Record App := mkApp {
  etag_fn : option (etag_input -> jstr);
  jsonp_callback_name : jstr
}.

Inductive jserror : Type :=
| TypeError (msg : jstr)
| HttpError (code : Z) (msg : jstr) (types : list jstr)
| IOError (code : jstr).

Inductive result (A : Type) : Type :=
| Ok (a : A)
| Err (e : jserror).
Arguments Ok {A} a.
Arguments Err {A} e.

(** [Headers.prototype.set] and [get] of the runtime (Fetch standard): the
    arguments are ByteStrings, the value is stripped of leading and trailing
    HTTP whitespace, and an invalid name or value throws a TypeError *)
Definition is_http_ws (c : Z) : bool :=
  (c =? 9)%Z || (c =? 10)%Z || (c =? 13)%Z || (c =? 32)%Z.

Fixpoint strip_leading_ws (s : jstr) : jstr :=
  match s with
  | c :: t => if is_http_ws c then strip_leading_ws t else s
  | [] => []
  end.

Definition normalizeHeaderValue (v : jstr) : jstr :=
  rev (strip_leading_ws (rev (strip_leading_ws v))).

Definition is_byte (c : Z) : bool := (0 <=? c)%Z && (c <=? 255)%Z.

(** [tchar]: ALPHA, DIGIT and !#$%&'*+-.^_`|~ *)
Definition is_tchar (c : Z) : bool :=
  ((65 <=? c) && (c <=? 90))%Z || ((97 <=? c) && (c <=? 122))%Z
  || ((48 <=? c) && (c <=? 57))%Z
  || existsb (Z.eqb c) [33; 35; 36; 37; 38; 39; 42; 43; 45; 46; 94; 95; 96; 124; 126]%Z.

Definition is_token (n : jstr) : bool := negb (is_empty n) && forallb is_tchar n.

(** NUL, LF and CR may not occur in a value *)
Definition bad_value_char (c : Z) : bool := (c =? 0)%Z || (c =? 10)%Z || (c =? 13)%Z.

Definition headers_set (h : Headers) (name value : jstr) : result Headers :=
  if negb (forallb is_byte name) then Err (TypeError (js "Argument 1 is not a valid ByteString."))
  else if negb (forallb is_byte value) then Err (TypeError (js "Argument 2 is not a valid ByteString."))
  else
    let v := normalizeHeaderValue value in
    if negb (is_token name) then Err (TypeError (js "Header name is not valid."))
    else if existsb bad_value_char v then Err (TypeError (js "Header value is not valid."))
    else Ok (h_set h name v).


(** a value that [Headers.set] stores unchanged: bytes other than NUL, LF
    and CR, with no HTTP whitespace at either end *)
Definition header_value_ok (v : jstr) : bool :=
  forallb (fun c => is_byte c && negb (bad_value_char c)) v && jeqb (normalizeHeaderValue v) v.

Record Env := mkEnv {
  req : Request;
  app : App;
  fs_stat : jstr -> result FileInfo;      (* [Deno.stat] *)
  fs_read : jstr -> result (list Z)       (* [Deno.readFile] *)
}.

Inductive iocall : Type :=
| IOStat (p : jstr)
| IORead (p : jstr).

(** what [req.respond(this)] transmits *)
Record Snapshot := mkSnapshot {
  sn_status : Z;
  sn_headers : Headers;
  sn_body : option chunk
}.

Record St := mkSt {
  status : Z;
  headers : Headers;
  body : option chunk;
  sent : list Snapshot;
  io : list iocall
}.

Definition set_status (n : Z) (s : St) : St :=
  mkSt n (headers s) (body s) (sent s) (io s).
Definition set_headers (h : Headers) (s : St) : St :=
  mkSt (status s) h (body s) (sent s) (io s).
Definition set_body (c : chunk) (s : St) : St :=
  mkSt (status s) (headers s) (Some c) (sent s) (io s).
Definition add_sent (x : Snapshot) (s : St) : St :=
  mkSt (status s) (headers s) (body s) (sent s ++ [x]) (io s).
Definition add_io (x : iocall) (s : St) : St :=
  mkSt (status s) (headers s) (body s) (sent s) (io s ++ [x]).

(** ** The monad *)

Definition M (A : Type) := Env -> St -> result A * St.

Definition ret {A} (a : A) : M A := fun _ s => (Ok a, s).

Definition bind {A B} (m : M A) (f : A -> M B) : M B :=
  fun e s =>
    match m e s with
    | (Ok a, s') => f a e s'
    | (Err x, s') => (Err x, s')
    end.

Notation "x <- m ;; k" := (bind m (fun x => k))
  (at level 61, m at next level, right associativity).
Notation "m ;; k" := (bind m (fun _ => k))
  (at level 61, right associativity).

Definition throw {A} (x : jserror) : M A := fun _ s => (Err x, s).

(** [try { m } catch (err) { h(err) }] *)
Definition catch {A} (m : M A) (h : jserror -> M A) : M A :=
  fun e s =>
    match m e s with
    | (Ok a, s') => (Ok a, s')
    | (Err x, s') => h x e s'
    end.

(** the outcome of an awaited promise, as a value *)
Definition attempt {A} (m : M A) : M (result A) :=
  fun e s =>
    match m e s with
    | (Ok a, s') => (Ok (Ok a), s')
    | (Err x, s') => (Ok (Err x), s')
    end.

Definition modify (f : St -> St) : M unit := fun _ s => (Ok tt, f s).
Definition gets {A} (f : St -> A) : M A := fun _ s => (Ok (f s), s).
Definition asks {A} (f : Env -> A) : M A := fun e s => (Ok (f e), s).

Definition io_stat (p : jstr) : M FileInfo :=
  fun e s => (fs_stat e p, add_io (IOStat p) s).

Definition io_readFile (p : jstr) : M (list Z) :=
  fun e s => (fs_read e p, add_io (IORead p) s).

(** ** The [Response] class *)

(** The collaborators outside the core, at their interfaces. *)
Class Collaborators := {
  (** the MIME lookup [contentType] of media_types; [None] is [undefined] *)
  contentType : jstr -> option jstr;
  (** [stringify(body, replacer, spaces, escape)] of src/utils/stringify.ts,
      with the application's JSON settings *)
  stringify : jsval -> jstr;
  (** [vary(headers, field)] of the vary module *)
  vary : Headers -> jstr -> Headers;
  (** [normalizeType(t).value] of src/utils/normalizeType.ts *)
  normalizeType : jstr -> jstr;
  (** [req.accepts(types)]: the offered types acceptable to the request,
      best first *)
  accepts : Request -> list jstr -> list jstr;
  (** path utilities *)
  basename : jstr -> jstr;
  extname : jstr -> jstr;
  fromFileUrl : jstr -> jstr;
  join : jstr -> jstr -> jstr;
  (** [contentDisposition(type, filename)] of src/utils/contentDisposition.ts *)
  contentDisposition : jstr -> jstr -> jstr;
  (** [encodeUrl], [escapeHtml], and [new URL(u).toString()] *)
  encodeUrl : jstr -> jstr;
  escapeHtml : jstr -> jstr;
  url_to_string : ParsedURL -> jstr
}.

Section Opine.
Context `{CO : Collaborators}.

(** [contentType(type) || ""] *)
Definition ct_or_empty (t : jstr) : jstr :=
  match contentType t with Some c => c | None => [] end.

(** [type(type)] *)
Definition r_type (t : jstr) : M unit :=
  modify (fun s =>
    set_headers (h_set (headers s) (js "content-type") (ct_or_empty t)) s).

(** [set(field, value)] *)
Definition r_set (field value : jstr) : M unit :=
  let lowerCaseField := toLowerCase field in
  if jeqb lowerCaseField (js "content-type") then r_type value
  else modify (fun s => set_headers (h_set (headers s) lowerCaseField value) s).

(** [get(field)] *)
Definition r_get (field : jstr) : M jstr :=
  gets (fun s =>
    match h_get (headers s) (toLowerCase field) with
    | Some v => v
    | None => []
    end).

(** [unset(field)] *)
Definition r_unset (field : jstr) : M unit :=
  modify (fun s => set_headers (h_delete (headers s) field) s).

(** [vary(field)] *)
Definition r_vary (field : jstr) : M unit :=
  modify (fun s => set_headers (vary (headers s) field) s).

(** [setStatus(code)], and the assignment [this.status = code] *)
Definition r_setStatus (n : Z) : M unit := modify (set_status n).

(** [end(body?)]: the body slot is assigned when [body] is truthy, then
    [req.respond(this)] transmits the response as it stands *)
Definition r_end (b : option chunk) : M unit :=
  modify (fun s =>
    let s1 := match b with
              | Some c => if chunk_truthy c then set_body c s else s
              | None => s
              end in
    add_sent (mkSnapshot (status s1) (headers s1) (body s1)) s1).

(** [etag(chunk)] *)
Definition r_etag (c : etag_input) : M unit :=
  a <- asks app;;
  match etag_fn a with
  | Some etagFn =>
      if negb (is_empty (typeof_length c)) then
        let etag := etagFn c in
        if negb (is_empty etag) then r_set (js "ETag") etag else ret tt
      else ret tt
  | None => ret tt
  end.

Definition chunk_etag_input (c : chunk) : option etag_input :=
  match c with
  | CStr s => Some (EStr s)
  | CBytes b => Some (EBytes b)
  | CReader _ => None
  end.

(** [send(body)], lines 487-496: the default Content-Type of a string
    body, and the ETag of a string or a Uint8Array *)
Definition send_prepare (c : chunk) : M unit :=
  ct <- r_get (js "Content-Type");;
  (match c with
   | CStr _ => if is_empty ct then r_type (js "html") else ret tt
   | _ => ret tt
   end);;
  et <- r_get (js "ETag");;
  match chunk_etag_input c with
  | Some x => if is_empty et then r_etag x else ret tt
  | None => ret tt
  end.

(** [send(body)], lines 498-514: freshness, the statuses without a body,
    and [end] *)
Definition send_finish (c : chunk) : M unit :=
  r <- asks req;;
  (if fresh r then r_setStatus 304 else ret tt);;
  st <- gets status;;
  c' <- (if (st =? 204)%Z || (st =? 304)%Z then
           (r_unset (js "Content-Type");;
            r_unset (js "Content-Length");;
            r_unset (js "Transfer-Encoding");;
            ret (CStr []))
         else ret c);;
  if jeqb (method r) (js "HEAD") then r_end None else r_end (Some c').

(** [send(body)] from the classification of the body on *)
Definition send_chunk (c : chunk) : M unit :=
  send_prepare c;;
  send_finish c.

(** [json(body)]; its [this.send(body)] receives a string *)
Definition r_json (b : jsval) : M unit :=
  let s := stringify b in
  ct <- r_get (js "Content-Type");;
  (if is_empty ct then r_type (js "application/json") else ret tt);;
  send_chunk (CStr s).

(** the binary branch of [send]: [chunk = body], [type("bin")] when unset *)
Definition send_binary (c : chunk) : M unit :=
  ct <- r_get (js "Content-Type");;
  (if is_empty ct then r_type (js "bin") else ret tt);;
  send_chunk c.

(** [send(body = "")] *)
Definition r_send (b : jsval) : M unit :=
  match b with
  | JUndefined => send_chunk (CStr [])
  | JStr s => send_chunk (CStr s)
  | JBool _ | JNum _ => r_json b
  | JNull =>
      (* [body instanceof Uint8Array] is false, then [(body).read] reads a
         property of null *)
      throw (TypeError (js "Cannot read properties of null (reading 'read')"))
  | JBytes bs => send_binary (CBytes bs)
  | JFun _ => r_json b
  | JObj props =>
      match prop props (js "read") with
      | JFun _ => send_binary (CReader props)
      | _ => r_json b
      end
  end.

(** [sendFile(path)] *)
Definition r_sendFile (path0 : jstr) : M unit :=
  let path := if startsWith path0 (js "file:") then fromFileUrl path0 else path0 in
  b <- io_readFile path;;
  stats <- io_stat path;;
  (match mtime stats with
   | Some m => r_set (js "Last-Modified") m
   | None => ret tt
   end);;
  et <- r_get (js "ETag");;
  (if is_empty et then r_etag (EFile stats) else ret tt);;
  r_type (extname path);;
  r_send (JBytes b).

(** [download(path, filename?)] *)
Definition r_download (path : jstr) (filename : option jstr) : M unit :=
  let name := match filename with
              | Some f => if is_empty f then path else f
              | None => path
              end in
  r_set (js "Content-Disposition")
        (contentDisposition (js "attachment") (basename name));;
  catch (r_sendFile path)
        (fun err => r_unset (js "Content-Disposition");; throw err).

(** ** [format(obj)] *)

(** an object of handlers, in the order of [Object.keys]; a handler is
    named by a number *)
Definition Handlers := list (jstr * nat).

(** what [format] hands control to *)
Inductive action : Type :=
| CallHandler (h : nat)        (* [obj[key](req, this, next)] *)
| CallDefault (h : nat)        (* [fn()] *)
| CallNext (err : jserror).    (* [next(err)] *)

Definition lookup_handler (obj : Handlers) (k : jstr) : option nat :=
  option_map snd (find (fun p => jeqb (fst p) k) obj).

(** [Object.keys(rest)] where [{ default: fn, ...rest } = obj] *)
Definition format_keys (obj : Handlers) : list jstr :=
  map fst (filter (fun p => negb (jeqb (fst p) (js "default"))) obj).

(** [keys.length > 0 ? req.accepts(keys)[0] : false]; [None] stands for
    [false] and for [undefined] *)
Definition format_key (r : Request) (keys : list jstr) : option jstr :=
  match keys with
  | [] => None
  | _ => hd_error (accepts r keys)
  end.

Definition format_fallback (fn : option nat) (keys : list jstr) : M action :=
  match fn with
  | Some h => ret (CallDefault h)
  | None =>
      ret (CallNext (HttpError 406 (js "Not Acceptable") (map normalizeType keys)))
  end.

Definition r_format (obj : Handlers) : M action :=
  r <- asks req;;
  let fn := lookup_handler obj (js "default") in
  let keys := format_keys obj in
  let key := format_key r keys in
  r_vary (js "Accept");;
  match key with
  | Some k =>
      if negb (is_empty k) then
        (r_set (js "Content-Type") (normalizeType k);;
         match lookup_handler obj k with
         | Some h => ret (CallHandler h)
         | None => throw (TypeError (js "obj[key] is not a function"))
         end)
      else format_fallback fn keys
  | None => format_fallback fn keys
  end.

(** ** [jsonp(body)] *)

(** the characters kept by [callback.replace(/[^\[\]\w$.]/g, "")] *)
Definition cb_allowed (c : Z) : bool :=
  ((65 <=? c) && (c <=? 90))%Z || ((97 <=? c) && (c <=? 122))%Z
  || ((48 <=? c) && (c <=? 57))%Z || (c =? 95)%Z || (c =? 36)%Z
  || (c =? 46)%Z || (c =? 91)%Z || (c =? 93)%Z.

Definition sanitize_callback (cb : jstr) : jstr := filter cb_allowed cb.

(** [.replace(/\u2028/g, "\\u2028").replace(/\u2029/g, "\\u2029")]: each
    separator becomes the six characters of its escape *)
Definition escape_separators (s : jstr) : jstr :=
  flat_map (fun c =>
              if (c =? 8232)%Z then js "\u2028"
              else if (c =? 8233)%Z then js "\u2029"
              else [c]) s.

Definition jsonp_wrap (cb b : jstr) : jstr :=
  js "/**/ typeof " ++ cb ++ js " === 'function' && " ++ cb
     ++ js "(" ++ b ++ js ");".

Definition lookup_query (q : list (jstr * qval)) (k : jstr) : option qval :=
  option_map snd (find (fun p => jeqb (fst p) k) q).

(** [this.req.query[app.get("jsonp callback name")]], then its first
    element when it is an array *)
Definition jsonp_callback (r : Request) (a : App) : option qval :=
  match lookup_query (query r) (jsonp_callback_name a) with
  | Some (QArr l) => nth_error l 0
  | x => x
  end.

Definition jsonp_plain (b : jstr) : M jstr :=
  ct <- r_get (js "Content-Type");;
  (if is_empty ct then
     (r_set (js "X-Content-Type-Options") (js "nosniff");;
      r_set (js "Content-Type") (js "application/json"))
   else ret tt);;
  ret b.

(** [jsonp(body)] up to its final [this.send(body)] *)
Definition r_jsonp_body (v : jsval) : M jstr :=
  let b := stringify v in
  r <- asks req;;
  a <- asks app;;
  match jsonp_callback r a with
  | Some (QStr cb) =>
      if negb (is_empty cb) then
        (r_set (js "X-Content-Type-Options") (js "nosniff");;
         r_type (js "text/javascript");;
         ret (jsonp_wrap (sanitize_callback cb) (escape_separators b)))
      else jsonp_plain b
  | _ => jsonp_plain b
  end.

(** [jsonp(body)]: the final [this.send(body)] receives a string *)
Definition r_jsonp (v : jsval) : M unit :=
  b <- r_jsonp_body v;;
  send_chunk (CStr b).

(** ** The static file server (src/middleware/serveStatic.ts) *)

(** the options; [before] stands for a hook that is a function *)
Record SSOptions := mkSSOptions {
  opt_fallthrough : option bool;
  opt_redirect : option bool;
  opt_before : option (jstr -> FileInfo -> M unit)
}.

(** [options.x !== false] *)
Definition not_false (o : option bool) : bool :=
  match o with Some false => false | _ => true end.

(** how the handler's promise settles: [next()], [next(err)], or neither *)
Inductive outcome : Type :=
| ONext
| ONextErr (e : jserror)
| ODone.

Fixpoint leading_slashes (s : jstr) : nat :=
  match s with
  | c :: t => if (c =? 47)%Z then S (leading_slashes t) else O
  | [] => O
  end.

(** [collapseLeadingSlashes(str)] *)
Definition collapseLeadingSlashes (s : jstr) : jstr :=
  let i := leading_slashes s in
  if (1 <? i)%nat then 47%Z :: skipn i s else s.

Definition nl : jstr := [10%Z].

(** [createHtmlDocument(title, body)] *)
Definition createHtmlDocument (title b : jstr) : jstr :=
  js "<!DOCTYPE html>" ++ nl ++
  js "<html lang=" ++ dq ++ js "en" ++ dq ++ js ">" ++ nl ++
  js "<head>" ++ nl ++
  js "<meta charset=" ++ dq ++ js "utf-8" ++ dq ++ js ">" ++ nl ++
  js "<title>" ++ title ++ js "</title>" ++ nl ++
  js "</head>" ++ nl ++
  js "<body>" ++ nl ++
  js "<pre>" ++ b ++ js "</pre>" ++ nl ++
  js "</body>" ++ nl ++
  js "</html>" ++ nl.

(** [createNotFoundDirectoryListener()] *)
Definition notFound_listener (forwardError : bool) : M outcome :=
  if forwardError then ret (ONextErr (HttpError 404 (js "Not Found") []))
  else ret ONext.

(** [createRedirectDirectoryListener()]; [self] is the listener's [this],
    [None] when it is [undefined] *)
Definition redirect_listener (self : option Request) (forwardError : bool)
    (fullPath : jstr) : M outcome :=
  if endsWith fullPath (js "/") then notFound_listener forwardError
  else
    match self with
    | None =>
        throw (TypeError (js "Cannot read properties of undefined (reading 'req')"))
    | Some r0 =>
        let ou := original_url r0 in
        let ou' := mkParsedURL
                     (collapseLeadingSlashes (pu_pathname ou ++ js "/"))
                     None (pu_other ou) in
        let loc := encodeUrl (url_to_string ou') in
        let doc := createHtmlDocument (js "Redirecting")
                     (js "Redirecting to <a href=" ++ dq ++ escapeHtml loc ++ dq
                         ++ js ">" ++ escapeHtml loc ++ js "</a>") in
        r_setStatus 301;;
        r_set (js "Content-Security-Policy") (js "default-src 'none'");;
        r_set (js "X-Content-Type-Options") (js "nosniff");;
        r_set (js "Location") loc;;
        r_send (JStr doc);;
        ret ODone
    end.

(** [onDirectory(res, req, next, forwardError, fullPath)], the listener
    chosen by [redirect] and called with an explicit receiver [self] *)
Definition onDirectory (redirect : bool) (self : option Request)
    (forwardError : bool) (fullPath : jstr) : M outcome :=
  if redirect then redirect_listener self forwardError fullPath
  else notFound_listener forwardError.

(** the relative path of lines 103-108 *)
Definition ss_path (r : Request) : jstr :=
  let path := url_pathname r in
  if jeqb path (js "/")
     && negb (jeqb (substr_last (pu_pathname (original_url r))) (js "/"))
  then []
  else path.

(** lines 110-139: join [path] against the root, stat, then the directory
    listener or the file transfer; [onDirectory] is called as a plain
    function, so its [this] is [undefined] *)
Definition ss_handle_path (rootPath : jstr) (fallthrough redirect : bool)
    (before : option (jstr -> FileInfo -> M unit)) (path : jstr) : M outcome :=
  let forwardError := negb fallthrough in
  let fullPath := join rootPath path in
  st <- attempt (io_stat fullPath);;
  match st with
  | Err e => ret (if forwardError then ONextErr e else ONext)
  | Ok s =>
      if isDirectory s then onDirectory redirect None forwardError fullPath
      else
        (match before with Some f => f path s | None => ret tt end);;
        x <- attempt (r_sendFile fullPath);;
        match x with
        | Ok _ => ret ODone
        | Err e => ret (if forwardError then ONextErr e else ONext)
        end
  end.

(** the handler returned by [serveStatic(root, options)] *)
Definition serveStatic (root : jstr) (opts : SSOptions) : M outcome :=
  let fallthrough := not_false (opt_fallthrough opts) in
  let redirect := not_false (opt_redirect opts) in
  let rootPath := if startsWith root (js "file:") then fromFileUrl root else root in
  r <- asks req;;
  if negb (jeqb (method r) (js "GET")) && negb (jeqb (method r) (js "HEAD")) then
    if fallthrough then ret ONext
    else
      (r_setStatus 405;;
       r_set (js "Allow") (js "GET, HEAD");;
       r_end None;;
       ret ODone)
  else ss_handle_path rootPath fallthrough redirect (opt_before opts) (ss_path r).

End Opine.

(** ** Concrete collaborators, used to evaluate the embedding *)

Fixpoint digits_aux (fuel : nat) (n : Z) (acc : jstr) : jstr :=
  match fuel with
  | O => acc
  | S f =>
      let acc' := (48 + n mod 10)%Z :: acc in
      if (n / 10 =? 0)%Z then acc' else digits_aux f (n / 10) acc'
  end.

(** [String(n)] for an integer [n] *)
Definition z_to_jstr (n : Z) : jstr :=
  if (n <? 0)%Z then 45%Z :: digits_aux 64 (- n) [] else digits_aux 64 n [].

(** [JSON.stringify] on null, booleans, integers and strings that need no
    escape, with default settings *)
Definition ex_stringify (v : jsval) : jstr :=
  match v with
  | JNull => js "null"
  | JBool true => js "true"
  | JBool false => js "false"
  | JNum n => z_to_jstr n
  | JStr s => dq ++ s ++ dq
  | _ => js "{}"
  end.

(** a few entries of the media_types table *)
Fixpoint has_infix (p s : jstr) : bool :=
  startsWith s p || match s with [] => false | _ :: t => has_infix p t end.

(** the last branch follows [contentType] of media_types 2.4.7: a string
    with a slash is taken as the type itself, and a charset is added only
    when it names none *)
Definition ex_contentType (t : jstr) : option jstr :=
  if jeqb t (js "json") || jeqb t (js "application/json") then
    Some (js "application/json; charset=utf-8")
  else if jeqb t (js "html") || jeqb t (js "text/html") then
    Some (js "text/html; charset=utf-8")
  else if jeqb t (js "text/javascript") then
    Some (js "application/javascript; charset=utf-8")
  else if jeqb t (js "txt") || jeqb t (js "text/plain") then
    Some (js "text/plain; charset=utf-8")
  else if jeqb t (js "bin") then Some (js "application/octet-stream")
  else if jeqb t (js ".pdf") then Some (js "application/pdf")
  else if has_infix (js "/") t && has_infix (js "charset") t then Some t
  else None.

Definition ex_normalizeType (t : jstr) : jstr :=
  if jeqb t (js "json") then js "application/json"
  else if jeqb t (js "html") then js "text/html"
  else t.

(** Modelled from the spec: [req.accepts] of src/request.ts, "the best
    content-type match against the request's Accept negotiation"; here the
    Accept header names a single type, and no header accepts everything *)
Definition ex_accepts (r : Request) (keys : list jstr) : list jstr :=
  match accept r with
  | None => keys
  | Some a => filter (fun k => jeqb (ex_normalizeType k) a) keys
  end.

(** [vary]: appends the field to the Vary header unless it is listed *)
Definition ex_vary (h : Headers) (field : jstr) : Headers :=
  match h_get h (js "Vary") with
  | None => h_set h (js "Vary") field
  | Some v => if jeqb v field then h else h_set h (js "Vary") (v ++ js ", " ++ field)
  end.

Fixpoint drop_slashes (s : jstr) : jstr :=
  match s with
  | c :: t => if (c =? 47)%Z then drop_slashes t else s
  | [] => []
  end.

(** [join(a, b)] for an absolute [a] without trailing slash *)
Definition ex_join (a b : jstr) : jstr :=
  if is_empty (drop_slashes b) then a else a ++ js "/" ++ drop_slashes b.

#[global] Instance ex_collaborators : Collaborators := {
  contentType := ex_contentType;
  stringify := ex_stringify;
  vary := ex_vary;
  normalizeType := ex_normalizeType;
  accepts := ex_accepts;
  basename := fun p => p;
  extname := fun p => p;
  fromFileUrl := fun p => p;
  join := ex_join;
  contentDisposition := fun t f => t ++ js "; filename=" ++ dq ++ f ++ dq;
  encodeUrl := fun u => u;
  escapeHtml := fun u => u;
  url_to_string := fun u => pu_other u ++ pu_pathname u
}.

Definition ex_request (m : jstr) (isFresh : bool) : Request :=
  mkRequest m isFresh None [] (js "/") (mkParsedURL (js "/") None []).

Definition ex_env (r : Request) : Env :=
  mkEnv r (mkApp None (js "callback")) (fun _ => Err (IOError (js "ENOENT")))
        (fun _ => Err (IOError (js "ENOENT"))).

Definition st0 : St := mkSt 200 [] None [] [].

(** ** More of the [Response] class, and the options of the static server *)

(** [STATUS_TEXT] of std/http/http_status: the reason phrase of a code *)
Class StatusTexts := {
  status_text : Z -> option jstr
}.

Section Opine2.
Context `{CO : Collaborators} `{STX : StatusTexts}.

(** [attachment(filename)] *)
Definition r_attachment (filename : jstr) : M unit :=
  (if negb (is_empty filename) then r_type (extname filename) else ret tt);;
  r_set (js "Content-Disposition") (contentDisposition (js "attachment") filename).

(** [sendStatus(code)]: [STATUS_TEXT.get(code) || String(code)] *)
Definition r_sendStatus (code : Z) : M unit :=
  let b := match status_text code with
           | Some t => if is_empty t then z_to_jstr code else t
           | None => z_to_jstr code
           end in
  r_setStatus code;;
  r_type (js "txt");;
  r_send (JStr b).

(** truthiness of a JavaScript value (NaN aside) *)
Definition truthy (v : jsval) : bool :=
  match v with
  | JUndefined | JNull => false
  | JBool b => b
  | JNum n => negb (n =? 0)%Z
  | JStr s => negb (is_empty s)
  | JBytes _ | JFun _ | JObj _ => true
  end.

(** [v !== false] *)
Definition strict_not_false (v : jsval) : bool :=
  match v with JBool false => false | _ => true end.

(** [serveStatic(root, options)], lines 63-74: the options read when the
    handler is built; [hooks] is the function a [JFun] value names.  The
    [before] hook is kept when it is a function; a falsy one is never
    called (line 127). *)
Definition serveStatic_options (hooks : nat -> jstr -> FileInfo -> M unit)
    (options : list (jstr * jsval)) : result SSOptions :=
  let before := prop options (js "before") in
  if truthy before && negb (match before with JFun _ => true | _ => false end) then
    Err (TypeError (js "option before must be function"))
  else
    Ok (mkSSOptions
          (Some (strict_not_false (prop options (js "fallthrough"))))
          (Some (strict_not_false (prop options (js "redirect"))))
          (match before with JFun id => Some (hooks id) | _ => None end)).

End Opine2.

#[global] Instance ex_status_texts : StatusTexts := {
  status_text := fun n =>
    if (n =? 200)%Z then Some (js "OK")
    else if (n =? 404)%Z then Some (js "Not Found")
    else None
}.

(** * Properties *)

Section Proofs.
Context `{CO : Collaborators}.

Lemma jeqb_true (a b : jstr) : jeqb a b = true <-> a = b.
Proof. unfold jeqb; destruct (list_eq_dec Z.eq_dec a b); split; congruence. Qed.

Lemma jeqb_refl (a : jstr) : jeqb a a = true.
Proof. apply jeqb_true; reflexivity. Qed.

Lemma lower_unit_idem (c : Z) : lower_unit (lower_unit c) = lower_unit c.
Proof.
  unfold lower_unit.
  destruct ((65 <=? c)%Z && (c <=? 90)%Z) eqn:E.
  - apply andb_true_iff in E as [E1 E2]. apply Z.leb_le in E1, E2.
    replace ((65 <=? c + 32)%Z && (c + 32 <=? 90)%Z) with false; [reflexivity|].
    symmetry; apply andb_false_iff; right; apply Z.leb_gt; lia.
  - rewrite E; reflexivity.
Qed.

Lemma toLowerCase_idem (s : jstr) : toLowerCase (toLowerCase s) = toLowerCase s.
Proof.
  unfold toLowerCase; rewrite map_map.
  apply map_ext; intro; apply lower_unit_idem.
Qed.

Lemma find_filter_none {A} (f : A -> bool) (l : list A) :
  find f (filter (fun x => negb (f x)) l) = None.
Proof.
  induction l as [|x l IH]; simpl; [reflexivity|].
  destruct (f x) eqn:E; simpl; [exact IH|]. rewrite E; exact IH.
Qed.

Lemma find_app_none {A} (f : A -> bool) (l1 l2 : list A) :
  find f l1 = None -> find f (l1 ++ l2) = find f l2.
Proof.
  induction l1 as [|x l IH]; simpl; [reflexivity|].
  destruct (f x); [discriminate|exact IH].
Qed.

(** a deleted header is absent *)
Lemma h_get_delete (h : Headers) (n : jstr) : h_get (h_delete h n) n = None.
Proof.
  unfold h_get, h_delete.
  rewrite (find_filter_none (fun p => jeqb (fst p) (toLowerCase n))). reflexivity.
Qed.

(** a header just set is read back *)
Lemma h_get_set (h : Headers) (n v : jstr) : h_get (h_set h n v) n = Some v.
Proof.
  unfold h_get, h_set.
  rewrite find_app_none
    by apply (find_filter_none (fun p => jeqb (fst p) (toLowerCase n))).
  simpl. rewrite jeqb_refl. reflexivity.
Qed.

Lemma set_headers_twice (h1 h2 : Headers) (s : St) :
  set_headers h1 (set_headers h2 s) = set_headers h1 s.
Proof. reflexivity. Qed.

Lemma js_content_type_lower : toLowerCase (js "Content-Type") = js "content-type".
Proof. reflexivity. Qed.

Lemma h_get_set_lower (h : Headers) (n1 n2 v : jstr) :
  toLowerCase n1 = toLowerCase n2 -> h_get (h_set h n1 v) n2 = Some v.
Proof.
  intro H. unfold h_get. rewrite <- H. fold (h_get (h_set h n1 v) n1).
  apply h_get_set.
Qed.

Lemma r_set_disposition (v : jstr) :
  r_set (js "Content-Disposition") v
  = modify (fun s => set_headers (h_set (headers s) (js "content-disposition") v) s).
Proof. reflexivity. Qed.

(** ** C10: [set] and [get] *)

Lemma tchar_byte (c : Z) : is_tchar c = true -> is_byte c = true.
Proof.
  unfold is_tchar, is_byte. intro H. rewrite andb_true_iff, !Z.leb_le.
  repeat rewrite orb_true_iff in H. rewrite !andb_true_iff, !Z.leb_le in H.
  destruct H as [[[H|H]|H]|H]; try lia.
  apply existsb_exists in H as [x [Hin Hx]]. apply Z.eqb_eq in Hx. subst x.
  simpl in Hin. repeat (destruct Hin as [Hin|Hin]; [subst c; lia|]). destruct Hin.
Qed.

Lemma token_bytes (n : jstr) : is_token n = true -> forallb is_byte n = true.
Proof.
  unfold is_token. rewrite andb_true_iff, !forallb_forall. intros [_ H] c Hc.
  apply tchar_byte, H, Hc.
Qed.

(** on a token name and a value that needs no trimming, [Headers.set]
    neither throws nor changes the value *)
Lemma headers_set_ok (h : Headers) (n v : jstr) :
  is_token n = true -> header_value_ok v = true -> headers_set h n v = Ok (h_set h n v).
Proof.
  intros Ht Hv. unfold header_value_ok in Hv. apply andb_true_iff in Hv as [Hc Hn].
  apply jeqb_true in Hn.
  assert (Hb : forallb is_byte v = true).
  { rewrite forallb_forall in Hc |- *. intros c Hin.
    specialize (Hc c Hin). apply andb_true_iff in Hc as [Hc _]. exact Hc. }
  assert (He : existsb bad_value_char v = false).
  { destruct (existsb bad_value_char v) eqn:E; [|reflexivity].
    apply existsb_exists in E as [c [Hin Hbad]]. rewrite forallb_forall in Hc.
    specialize (Hc c Hin). rewrite Hbad, andb_false_r in Hc. discriminate. }
  unfold headers_set. rewrite (token_bytes n Ht), Hb, Hn, Ht, He. reflexivity.
Qed.



(** ** C4: [download] on a failed transfer *)

(** C4. [download(path, filename?)] sets Content-Disposition to
    [contentDisposition("attachment", basename(filename || path))] and only
    then runs [sendFile(path)]; when the transfer fails, the error that
    reaches the caller is the transfer's own, and the response it leaves
    has the Content-Disposition header removed. *)
Theorem download_failure_unsets_disposition (path : jstr) (filename : option jstr)
    (env : Env) (st st' : St) (e : jserror) :
  r_download path filename env st = (Err e, st') ->
  let name := match filename with
              | Some f => if is_empty f then path else f
              | None => path
              end in
  let st1 := set_headers (h_set (headers st) (js "content-disposition")
                           (contentDisposition (js "attachment") (basename name))) st in
  exists s1,
    r_sendFile path env st1 = (Err e, s1) /\
    st' = set_headers (h_delete (headers s1) (js "Content-Disposition")) s1 /\
    h_get (headers st') (js "Content-Disposition") = None.
Proof.
  intros H name st1.
  unfold r_download in H. fold name in H. rewrite r_set_disposition in H.
  unfold bind, modify, catch in H. fold st1 in H.
  destruct (r_sendFile path env st1) as [[a|x] s1] eqn:E.
  - discriminate H.
  - unfold r_unset, modify, throw in H. simpl in H. inversion H; subst.
    exists s1. split; [reflexivity|]. split; [reflexivity|].
    apply h_get_delete.
Qed.

(** ** C5: [etag] *)

(** C5 (as the code has it). [etag(chunk)] does nothing when no ETag
    function is configured; otherwise, whatever the shape of [chunk] (its
    length test [typeof chunk.length] is a non-empty type name, so always
    truthy), it calls the function on [chunk] and sets the ETag header to
    the value only when that value is non-empty. *)
Theorem etag_sets_when_fn_nonempty (c : etag_input) (env : Env) (st : St) :
  (etag_fn (app env) = None -> r_etag c env st = (Ok tt, st)) /\
  (forall f, etag_fn (app env) = Some f ->
     r_etag c env st
       = (Ok tt, if is_empty (f c) then st
                 else set_headers (h_set (headers st) (js "etag") (f c)) st)).
Proof.
  split.
  - intro H. unfold r_etag, bind, asks. rewrite H. reflexivity.
  - intros f H. unfold r_etag, bind, asks. rewrite H.
    assert (Hl : is_empty (typeof_length c) = false) by (destruct c; reflexivity).
    rewrite Hl. simpl.
    destruct (is_empty (f c)); reflexivity.
Qed.

(** ** C6: [format] *)

(** C6. [format(obj)] always passes the headers through [vary(_, "Accept")].
    When negotiation over the keys other than [default] picks a key [k]
    (a non-empty key with a handler), it sets Content-Type to the lookup of
    [normalizeType(k)] and hands control to the handler of [k]; when
    nothing is picked, it hands control to the [default] handler if there
    is one, and otherwise to [next] with a 406 "Not Acceptable" error whose
    types are the normalized offered keys. *)
Theorem format_negotiates (obj : Handlers) (env : Env) (st : St) :
  let keys := format_keys obj in
  let h1 := vary (headers st) (js "Accept") in
  (forall k h, format_key (req env) keys = Some k -> k <> [] ->
     lookup_handler obj k = Some h ->
     r_format obj env st
       = (Ok (CallHandler h),
          set_headers (h_set h1 (js "content-type") (ct_or_empty (normalizeType k))) st)) /\
  ((forall k, format_key (req env) keys = Some k -> k = []) ->
     r_format obj env st
       = (Ok (match lookup_handler obj (js "default") with
              | Some h => CallDefault h
              | None => CallNext (HttpError 406 (js "Not Acceptable") (map normalizeType keys))
              end), set_headers h1 st)).
Proof.
  intros keys h1. split.
  - intros k h Hk Hne Hl. unfold r_format, bind, asks. fold keys. rewrite Hk.
    destruct k as [|z k]; [contradiction|].
    unfold r_vary, modify. cbn -[lookup_handler h_set vary ct_or_empty].
    rewrite Hl. reflexivity.
  - intros Hn. unfold r_format, bind, asks. fold keys.
    destruct (format_key (req env) keys) as [k|] eqn:E.
    + rewrite (Hn k eq_refl). unfold format_fallback.
      destruct (lookup_handler obj (js "default")); reflexivity.
    + unfold format_fallback.
      destruct (lookup_handler obj (js "default")); reflexivity.
Qed.

(** ** C7: [jsonp] *)

Lemma sanitize_callback_in (cb : jstr) (c : Z) :
  In c (sanitize_callback cb) <-> In c cb /\ cb_allowed c = true.
Proof. apply filter_In. Qed.

Lemma escape_unit_clean (y x : Z) :
  In x (if (y =? 8232)%Z then js "\u2028"
        else if (y =? 8233)%Z then js "\u2029" else [y]) ->
  x <> 8232%Z /\ x <> 8233%Z.
Proof.
  destruct (y =? 8232)%Z eqn:E1.
  - simpl; intuition subst; discriminate.
  - destruct (y =? 8233)%Z eqn:E2.
    + simpl; intuition subst; discriminate.
    + intros [Hx|[]]; subst. apply Z.eqb_neq in E1, E2. split; assumption.
Qed.

Lemma escape_separators_clean (s : jstr) :
  ~ In 8232%Z (escape_separators s) /\ ~ In 8233%Z (escape_separators s).
Proof.
  unfold escape_separators.
  split; intro H; apply in_flat_map in H as [y [_ Hy]];
    apply escape_unit_clean in Hy; destruct Hy as [H1 H2]; [apply H1|apply H2]; reflexivity.
Qed.

(** C7 (as the code has it). With a non-empty string callback (the first
    element when the query value is an array), [jsonp] sets
    X-Content-Type-Options: nosniff and a script Content-Type, and sends
    [/**/ typeof cb === 'function' && cb(body);] where [cb] keeps exactly the
    characters of the safe charset and [body] has U+2028 and U+2029
    escaped.  Without one, it sends the JSON text, and sets nosniff and a
    JSON Content-Type only when no Content-Type is set yet; a Content-Type
    already set is left alone, and then no nosniff header is added. *)
Theorem jsonp_callback_or_json (v : jsval) (env : Env) (st : St) :
  (forall cb, jsonp_callback (req env) (app env) = Some (QStr cb) -> cb <> [] ->
     r_jsonp_body v env st
       = (Ok (jsonp_wrap (sanitize_callback cb) (escape_separators (stringify v))),
          set_headers (h_set (h_set (headers st) (js "x-content-type-options") (js "nosniff"))
                             (js "content-type") (ct_or_empty (js "text/javascript"))) st) /\
     (forall c, In c (sanitize_callback cb) <-> In c cb /\ cb_allowed c = true) /\
     ~ In 8232%Z (escape_separators (stringify v)) /\
     ~ In 8233%Z (escape_separators (stringify v))) /\
  ((forall cb, jsonp_callback (req env) (app env) = Some (QStr cb) -> cb = []) ->
     r_jsonp_body v env st
       = (Ok (stringify v),
          match h_get (headers st) (js "content-type") with
          | Some (_ :: _) => st
          | _ => set_headers (h_set (h_set (headers st) (js "x-content-type-options")
                                           (js "nosniff"))
                                    (js "content-type") (ct_or_empty (js "application/json"))) st
          end)).
Proof.
  split.
  - intros cb Hcb Hne. split; [|split; [apply sanitize_callback_in|apply escape_separators_clean]].
    unfold r_jsonp_body, bind, asks. rewrite Hcb.
    destruct cb as [|z cb]; [contradiction|]. reflexivity.
  - intros Hn. unfold r_jsonp_body, bind, asks.
    assert (Hp : jsonp_plain (stringify v) env st
                 = (Ok (stringify v),
                    match h_get (headers st) (js "content-type") with
                    | Some (_ :: _) => st
                    | _ => set_headers (h_set (h_set (headers st) (js "x-content-type-options")
                                                     (js "nosniff"))
                                              (js "content-type")
                                              (ct_or_empty (js "application/json"))) st
                    end)).
    { unfold jsonp_plain, bind, r_get, gets.
      change (toLowerCase (js "Content-Type")) with (js "content-type").
      destruct (h_get (headers st) (js "content-type")) as [[|z l]|]; reflexivity. }
    destruct (jsonp_callback (req env) (app env)) as [q|] eqn:E; [|exact Hp].
    destruct q as [cb| |]; try exact Hp.
    rewrite (Hn cb eq_refl). exact Hp.
Qed.

(** ** C8: the mount root in the static server *)

(** C8. For a GET or HEAD request whose path relative to the mount is "/"
    while the original pathname does not end with "/", the static server
    takes the empty string as the relative path: it is the handler that
    joins [""] against the root and goes on from there. *)
Theorem serveStatic_mount_root_path (root : jstr) (opts : SSOptions) (env : Env) (st : St) :
  jeqb (method (req env)) (js "GET") || jeqb (method (req env)) (js "HEAD") = true ->
  url_pathname (req env) = js "/" ->
  substr_last (pu_pathname (original_url (req env))) <> js "/" ->
  ss_path (req env) = [] /\
  serveStatic root opts env st
    = ss_handle_path (if startsWith root (js "file:") then fromFileUrl root else root)
        (not_false (opt_fallthrough opts)) (not_false (opt_redirect opts))
        (opt_before opts) [] env st.
Proof.
  intros Hm Hp Ho.
  assert (Hs : ss_path (req env) = []).
  { unfold ss_path. rewrite Hp, jeqb_refl.
    destruct (jeqb (substr_last (pu_pathname (original_url (req env)))) (js "/")) eqn:E.
    - apply jeqb_true in E. contradiction.
    - reflexivity. }
  split; [exact Hs|].
  unfold serveStatic, bind, asks. rewrite <- Hs.
  destruct (jeqb (method (req env)) (js "GET")), (jeqb (method (req env)) (js "HEAD"));
    try discriminate Hm; reflexivity.
Qed.

(** ** C9: a directory without trailing slash, with [redirect] on *)

(** C9 (what the code does). With [redirect] on, a GET or HEAD request whose
    resolved path is a directory and does not end with "/" reaches the
    redirect listener, which is called without a receiver and reads
    [this.req] off [undefined]: the handler's promise rejects with a
    TypeError, after only the stat call, with no status, header or
    transmission of a 301 redirect. *)
Theorem serveStatic_directory_redirect_throws (root : jstr) (opts : SSOptions)
    (env : Env) (st : St) (fi : FileInfo) :
  let rootPath := if startsWith root (js "file:") then fromFileUrl root else root in
  let fullPath := join rootPath (ss_path (req env)) in
  not_false (opt_redirect opts) = true ->
  jeqb (method (req env)) (js "GET") || jeqb (method (req env)) (js "HEAD") = true ->
  fs_stat env fullPath = Ok fi ->
  isDirectory fi = true ->
  endsWith fullPath (js "/") = false ->
  serveStatic root opts env st
    = (Err (TypeError (js "Cannot read properties of undefined (reading 'req')")),
       add_io (IOStat fullPath) st).
Proof.
  intros rootPath fullPath Hr Hm Hs Hd He.
  assert (Hh : ss_handle_path rootPath (not_false (opt_fallthrough opts))
                 (not_false (opt_redirect opts)) (opt_before opts) (ss_path (req env)) env st
               = (Err (TypeError (js "Cannot read properties of undefined (reading 'req')")),
                  add_io (IOStat fullPath) st)).
  { unfold ss_handle_path, bind, attempt, io_stat. fold fullPath. rewrite Hs.
    rewrite Hd. unfold onDirectory. rewrite Hr. unfold redirect_listener.
    rewrite He. reflexivity. }
  unfold serveStatic, bind, asks. fold rootPath.
  destruct (jeqb (method (req env)) (js "GET")), (jeqb (method (req env)) (js "HEAD"));
    try discriminate Hm; exact Hh.
Qed.

(** ** Transmissions *)

(** an action that makes no transmission *)
Definition keeps_sent {A} (m : M A) : Prop :=
  forall e s, sent (snd (m e s)) = sent s.

(** an action that, when it returns, has made exactly one transmission *)
Definition sends_once (m : M unit) : Prop :=
  forall e s s', m e s = (Ok tt, s') -> exists x, sent s' = sent s ++ [x].

Lemma keeps_bind {A B} (m : M A) (f : A -> M B) :
  keeps_sent m -> (forall a, keeps_sent (f a)) -> keeps_sent (bind m f).
Proof.
  intros Hm Hf e s. unfold bind. specialize (Hm e s).
  destruct (m e s) as [[a|x] s']; simpl in *; [rewrite Hf|]; exact Hm.
Qed.

Lemma sends_once_bind {A} (m : M A) (f : A -> M unit) :
  keeps_sent m -> (forall a, sends_once (f a)) -> sends_once (bind m f).
Proof.
  intros Hm Hf e s s' H. unfold bind in H. specialize (Hm e s).
  destruct (m e s) as [[a|x] s1]; [|discriminate H].
  apply Hf in H as [x Hx]. exists x. simpl in Hm. rewrite Hx, Hm. reflexivity.
Qed.

Lemma keeps_ret {A} (a : A) : keeps_sent (ret a).
Proof. intros e s; reflexivity. Qed.

Lemma keeps_throw {A} (x : jserror) : keeps_sent (@throw A x).
Proof. intros e s; reflexivity. Qed.

Lemma keeps_gets {A} (f : St -> A) : keeps_sent (gets f).
Proof. intros e s; reflexivity. Qed.

Lemma keeps_asks {A} (f : Env -> A) : keeps_sent (asks f).
Proof. intros e s; reflexivity. Qed.

Lemma keeps_r_type (t : jstr) : keeps_sent (r_type t).
Proof. intros e s; reflexivity. Qed.

Lemma keeps_r_set (f v : jstr) : keeps_sent (r_set f v).
Proof. intros e s. unfold r_set. destruct (jeqb _ _); reflexivity. Qed.

Lemma keeps_r_get (f : jstr) : keeps_sent (r_get f).
Proof. intros e s; reflexivity. Qed.

Lemma keeps_r_unset (f : jstr) : keeps_sent (r_unset f).
Proof. intros e s; reflexivity. Qed.

Lemma keeps_r_setStatus (n : Z) : keeps_sent (r_setStatus n).
Proof. intros e s; reflexivity. Qed.

Lemma keeps_r_etag (c : etag_input) : keeps_sent (r_etag c).
Proof.
  intros e s. unfold r_etag, bind, asks.
  destruct (etag_fn (app e)) as [f|]; [|reflexivity].
  destruct (negb (is_empty (typeof_length c))); [|reflexivity].
  destruct (negb (is_empty (f c))); [apply keeps_r_set|reflexivity].
Qed.

Lemma sends_once_end (b : option chunk) : sends_once (r_end b).
Proof.
  intros e s s' H. unfold r_end, modify in H. inversion H; subst.
  destruct b as [c|]; [destruct (chunk_truthy c)|]; eexists; reflexivity.
Qed.

Lemma sends_once_throw (x : jserror) : sends_once (throw x).
Proof. intros e s s' H. discriminate H. Qed.

Create HintDb sent.
#[local] Hint Resolve keeps_ret keeps_throw keeps_gets keeps_asks keeps_r_type
  keeps_r_set keeps_r_get keeps_r_unset keeps_r_setStatus keeps_r_etag
  sends_once_end sends_once_throw : sent.

Ltac sent_steps :=
  repeat first
    [ progress auto with sent
    | apply sends_once_bind; [|intro]
    | apply keeps_bind; [|intro]
    | match goal with
      | |- keeps_sent (match ?x with _ => _ end) => destruct x
      | |- sends_once (match ?x with _ => _ end) => destruct x
      end ].

Lemma sends_once_send_chunk (c : chunk) : sends_once (send_chunk c).
Proof. unfold send_chunk, send_prepare, send_finish. sent_steps. Qed.

Lemma sends_once_send (v : jsval) : sends_once (r_send v).
Proof.
  destruct v; simpl; unfold r_json, send_binary;
    try apply sends_once_send_chunk; try apply sends_once_throw.
  - apply sends_once_bind; [auto with sent|intro]. apply sends_once_bind.
    + destruct (is_empty a); auto with sent.
    + intro; apply sends_once_send_chunk.
  - apply sends_once_bind; [auto with sent|intro]. apply sends_once_bind.
    + destruct (is_empty a); auto with sent.
    + intro; apply sends_once_send_chunk.
  - apply sends_once_bind; [auto with sent|intro]. apply sends_once_bind.
    + destruct (is_empty a); auto with sent.
    + intro; apply sends_once_send_chunk.
  - apply sends_once_bind; [auto with sent|intro]. apply sends_once_bind.
    + destruct (is_empty a); auto with sent.
    + intro; apply sends_once_send_chunk.
  - destruct (prop props (js "read"));
      apply sends_once_bind; (try (auto with sent)); intro;
      apply sends_once_bind; try (intro; apply sends_once_send_chunk);
      destruct (is_empty a); auto with sent.
Qed.

(** ** C1: [end] and [send] called again *)

(** C1 (as the code has it). [end] keeps no record of earlier
    transmissions: every call assigns a truthy body to the body slot and
    hands the response, as it stands, to [req.respond] once more; and every
    call of [send] that returns has made exactly one more transmission,
    whatever was transmitted before. *)
Theorem end_and_send_transmit_every_call (b : option chunk) (v : jsval)
    (env : Env) (st : St) :
  (let s1 := match b with
             | Some c => if chunk_truthy c then set_body c st else st
             | None => st
             end in
   r_end b env st = (Ok tt, add_sent (mkSnapshot (status s1) (headers s1) (body s1)) s1)) /\
  (forall s', r_send v env st = (Ok tt, s') -> exists x, sent s' = sent st ++ [x]).
Proof.
  split; [reflexivity|].
  intros s' H. exact (sends_once_send v env st s' H).
Qed.

(** ** C2: [send] of a value that is not a body *)

(** C2 (what the code does with [null]). [send(null)] takes the "object"
    case, where [null instanceof Uint8Array] is false and reading
    [(null).read] throws a TypeError: nothing is encoded or transmitted
    and the response is unchanged. *)
Theorem send_null_throws (env : Env) (st : St) :
  r_send JNull env st
  = (Err (TypeError (js "Cannot read properties of null (reading 'read')")), st).
Proof. reflexivity. Qed.

(** the other values that are not bodies go to [json] *)
Lemma send_json_otherwise (v : jsval) :
  match v with
  | JBool _ | JNum _ | JFun _ => True
  | JObj props => match prop props (js "read") with JFun _ => False | _ => True end
  | _ => False
  end ->
  r_send v = r_json v.
Proof.
  destruct v; simpl; try contradiction; try reflexivity.
  destruct (prop props (js "read")); simpl; tauto.
Qed.

(** ** C3: freshness and the statuses without a body *)

Lemma find_filter_same {A} (f g : A -> bool) (l : list A) :
  (forall x, f x = true -> g x = true) -> find f (filter g l) = find f l.
Proof.
  intro H. induction l as [|x l IH]; simpl; [reflexivity|].
  destruct (g x) eqn:Eg; simpl.
  - destruct (f x); [reflexivity|exact IH].
  - destruct (f x) eqn:Ef; [rewrite (H x Ef) in Eg; discriminate|exact IH].
Qed.

(** deleting one header leaves the others *)
Lemma h_get_delete_other (h : Headers) (n m : jstr) :
  toLowerCase n <> toLowerCase m -> h_get (h_delete h n) m = h_get h m.
Proof.
  intro Hnm. unfold h_get, h_delete. f_equal.
  apply find_filter_same. intros [k v] Hk. simpl in *.
  apply jeqb_true in Hk. subst k.
  destruct (jeqb (toLowerCase m) (toLowerCase n)) eqn:E; [|reflexivity].
  apply jeqb_true in E. congruence.
Qed.

(** On a fresh request, the end of [send] transmits a 304 without
    Content-Type, Content-Length and Transfer-Encoding; the body it
    transmits is the one the body slot held before, since [end("")] leaves
    the slot alone. *)
Lemma send_finish_fresh (c : chunk) (env : Env) (s s' : St) :
  fresh (req env) = true -> send_finish c env s = (Ok tt, s') ->
  exists x, sent s' = sent s ++ [x] /\ sn_status x = 304%Z /\
    h_get (sn_headers x) (js "Content-Type") = None /\
    h_get (sn_headers x) (js "Content-Length") = None /\
    h_get (sn_headers x) (js "Transfer-Encoding") = None /\
    sn_body x = body s.
Proof.
  intros Hf H.
  set (h' := h_delete (h_delete (h_delete (headers s) (js "Content-Type"))
                        (js "Content-Length")) (js "Transfer-Encoding")).
  assert (E : send_finish c env s
              = (Ok tt, add_sent (mkSnapshot 304 h' (body s))
                                 (set_headers h' (set_status 304 s)))).
  { unfold send_finish, bind, asks. rewrite Hf.
    destruct (jeqb (method (req env)) (js "HEAD")); reflexivity. }
  rewrite E in H. inversion H; subst. clear H E.
  exists (mkSnapshot 304 h' (body s)). simpl.
  split; [reflexivity|]. split; [reflexivity|]. unfold h'.
  repeat split;
    repeat (rewrite h_get_delete_other by (intro Heq; vm_compute in Heq; discriminate));
    apply h_get_delete.
Qed.
End Proofs.

(** * Properties of the rest of the code *)

Section Proofs2.
Context `{CO : Collaborators} `{STX : StatusTexts}.

Lemma find_app {A} (f : A -> bool) (l1 l2 : list A) :
  find f (l1 ++ l2) = match find f l1 with Some x => Some x | None => find f l2 end.
Proof.
  induction l1 as [|x l IH]; simpl; [reflexivity|].
  destruct (f x); [reflexivity|exact IH].
Qed.

Lemma h_get_lower (h : Headers) (n : jstr) : h_get h (toLowerCase n) = h_get h n.
Proof. unfold h_get. rewrite toLowerCase_idem. reflexivity. Qed.

(** setting one header leaves the others *)
Lemma h_get_set_other (h : Headers) (n m v : jstr) :
  toLowerCase n <> toLowerCase m -> h_get (h_set h n v) m = h_get h m.
Proof.
  intro Hnm. unfold h_set.
  assert (Hd : h_get (h_delete h n) m = h_get h m) by (apply h_get_delete_other; exact Hnm).
  unfold h_get in *. rewrite find_app.
  destruct (find _ (h_delete h n)) as [p|] eqn:E; [exact Hd|].
  simpl. destruct (jeqb (toLowerCase n) (toLowerCase m)) eqn:E2.
  - apply jeqb_true in E2. contradiction.
  - exact Hd.
Qed.

(** ** The slashes of a redirect target *)

Lemma leading_slashes_skipn (s : jstr) : leading_slashes (skipn (leading_slashes s) s) = O.
Proof.
  induction s as [|c t IH]; simpl; [reflexivity|].
  destruct (c =? 47)%Z eqn:E; simpl; [exact IH|]. rewrite E. reflexivity.
Qed.

(** [collapseLeadingSlashes] leaves at most one leading slash, keeps what
    follows the slashes, and is idempotent; a string with at most one
    leading slash is returned as it is. *)
Theorem collapseLeadingSlashes_spec (s : jstr) :
  leading_slashes (collapseLeadingSlashes s) = Nat.min 1 (leading_slashes s) /\
  skipn (leading_slashes (collapseLeadingSlashes s)) (collapseLeadingSlashes s)
    = skipn (leading_slashes s) s /\
  collapseLeadingSlashes (collapseLeadingSlashes s) = collapseLeadingSlashes s /\
  ((leading_slashes s <= 1)%nat -> collapseLeadingSlashes s = s).
Proof.
  unfold collapseLeadingSlashes; cbv zeta.
  destruct (1 <? leading_slashes s)%nat eqn:E.
  - apply Nat.ltb_lt in E.
    assert (L : leading_slashes (47%Z :: skipn (leading_slashes s) s) = 1%nat)
      by (simpl; rewrite leading_slashes_skipn; reflexivity).
    rewrite L. split; [lia|]. split; [reflexivity|]. split; [reflexivity|].
    intro; lia.
  - split; [apply Nat.ltb_ge in E; lia|]. split; [reflexivity|].
    split; [rewrite E; reflexivity|]. intro; reflexivity.
Qed.

(** ** The static server's handler *)

(** A request whose method is neither GET nor HEAD is passed on with
    [next()] and the response untouched when [fallthrough] is on; otherwise
    the handler answers 405 with [Allow: GET, HEAD], transmitting once,
    and never touches the file system. *)
Theorem serveStatic_method_not_allowed (root : jstr) (opts : SSOptions) (env : Env) (st : St) :
  jeqb (method (req env)) (js "GET") = false ->
  jeqb (method (req env)) (js "HEAD") = false ->
  serveStatic root opts env st
  = if not_false (opt_fallthrough opts) then (Ok ONext, st)
    else let h := h_set (headers st) (js "allow") (js "GET, HEAD") in
         (Ok ODone, add_sent (mkSnapshot 405 h (body st)) (set_headers h (set_status 405 st))).
Proof.
  intros Hg Hh. unfold serveStatic, bind, asks. rewrite Hg, Hh. simpl.
  destruct (not_false (opt_fallthrough opts)); reflexivity.
Qed.

(** When the stat of the resolved path fails, the handler calls
    [next(err)] with that error when [fallthrough] is off and [next()]
    otherwise; the response is untouched and nothing else is read. *)
Theorem serveStatic_stat_error (root : jstr) (opts : SSOptions) (env : Env) (st : St)
    (e : jserror) :
  let rootPath := if startsWith root (js "file:") then fromFileUrl root else root in
  let fullPath := join rootPath (ss_path (req env)) in
  jeqb (method (req env)) (js "GET") || jeqb (method (req env)) (js "HEAD") = true ->
  fs_stat env fullPath = Err e ->
  serveStatic root opts env st
  = (Ok (if not_false (opt_fallthrough opts) then ONext else ONextErr e),
     add_io (IOStat fullPath) st).
Proof.
  intros rootPath fullPath Hm Hs.
  assert (Hh : ss_handle_path rootPath (not_false (opt_fallthrough opts))
                 (not_false (opt_redirect opts)) (opt_before opts) (ss_path (req env)) env st
               = (Ok (if not_false (opt_fallthrough opts) then ONext else ONextErr e),
                  add_io (IOStat fullPath) st)).
  { unfold ss_handle_path, bind, attempt, io_stat. fold fullPath. rewrite Hs.
    unfold ret. destruct (not_false (opt_fallthrough opts)); reflexivity. }
  unfold serveStatic, bind, asks. fold rootPath.
  destruct (jeqb (method (req env)) (js "GET")), (jeqb (method (req env)) (js "HEAD"));
    try discriminate Hm; exact Hh.
Qed.

(** A directory is answered with a 404 error passed to [next] when
    [fallthrough] is off, and with [next()] otherwise, when [redirect] is
    off or when the resolved path already ends with "/": nothing is set
    on the response and nothing is transmitted. *)
Theorem serveStatic_directory_not_found (root : jstr) (opts : SSOptions) (env : Env) (st : St)
    (fi : FileInfo) :
  let rootPath := if startsWith root (js "file:") then fromFileUrl root else root in
  let fullPath := join rootPath (ss_path (req env)) in
  jeqb (method (req env)) (js "GET") || jeqb (method (req env)) (js "HEAD") = true ->
  fs_stat env fullPath = Ok fi ->
  isDirectory fi = true ->
  not_false (opt_redirect opts) = false \/ endsWith fullPath (js "/") = true ->
  serveStatic root opts env st
  = (Ok (if not_false (opt_fallthrough opts) then ONext
         else ONextErr (HttpError 404 (js "Not Found") [])),
     add_io (IOStat fullPath) st).
Proof.
  intros rootPath fullPath Hm Hs Hd Hr.
  assert (Hh : ss_handle_path rootPath (not_false (opt_fallthrough opts))
                 (not_false (opt_redirect opts)) (opt_before opts) (ss_path (req env)) env st
               = (Ok (if not_false (opt_fallthrough opts) then ONext
                      else ONextErr (HttpError 404 (js "Not Found") [])),
                  add_io (IOStat fullPath) st)).
  { unfold ss_handle_path, bind, attempt, io_stat. fold fullPath. rewrite Hs, Hd.
    unfold onDirectory.
    destruct Hr as [Hr|Hr].
    - rewrite Hr. unfold notFound_listener.
      destruct (not_false (opt_fallthrough opts)); reflexivity.
    - destruct (not_false (opt_redirect opts)).
      + unfold redirect_listener. rewrite Hr. unfold notFound_listener.
        destruct (not_false (opt_fallthrough opts)); reflexivity.
      + unfold notFound_listener.
        destruct (not_false (opt_fallthrough opts)); reflexivity. }
  unfold serveStatic, bind, asks. fold rootPath.
  destruct (jeqb (method (req env)) (js "GET")), (jeqb (method (req env)) (js "HEAD"));
    try discriminate Hm; exact Hh.
Qed.

(** For a regular file and no [before] hook, the handler never rejects: it
    settles without calling [next] when the transfer succeeds, and hands
    the transfer's error to [next] when [fallthrough] is off, or calls
    [next()] when it is on. *)
Theorem serveStatic_file_outcome (root : jstr) (opts : SSOptions) (env : Env) (st : St)
    (fi : FileInfo) :
  let rootPath := if startsWith root (js "file:") then fromFileUrl root else root in
  let fullPath := join rootPath (ss_path (req env)) in
  jeqb (method (req env)) (js "GET") || jeqb (method (req env)) (js "HEAD") = true ->
  fs_stat env fullPath = Ok fi ->
  isDirectory fi = false ->
  opt_before opts = None ->
  serveStatic root opts env st
  = (Ok (match fst (r_sendFile fullPath env (add_io (IOStat fullPath) st)) with
         | Ok _ => ODone
         | Err e => if not_false (opt_fallthrough opts) then ONext else ONextErr e
         end),
     snd (r_sendFile fullPath env (add_io (IOStat fullPath) st))).
Proof.
  intros rootPath fullPath Hm Hs Hd Hb.
  assert (Hh : ss_handle_path rootPath (not_false (opt_fallthrough opts))
                 (not_false (opt_redirect opts)) (opt_before opts) (ss_path (req env)) env st
               = (Ok (match fst (r_sendFile fullPath env (add_io (IOStat fullPath) st)) with
                      | Ok _ => ODone
                      | Err e => if not_false (opt_fallthrough opts) then ONext else ONextErr e
                      end),
                  snd (r_sendFile fullPath env (add_io (IOStat fullPath) st)))).
  { unfold ss_handle_path, bind, attempt, io_stat. fold fullPath. rewrite Hs, Hd, Hb.
    unfold ret. destruct (r_sendFile fullPath env (add_io (IOStat fullPath) st)) as [[a|x] s2].
    - reflexivity.
    - simpl. destruct (not_false (opt_fallthrough opts)); reflexivity. }
  unfold serveStatic, bind, asks. fold rootPath.
  destruct (jeqb (method (req env)) (js "GET")), (jeqb (method (req env)) (js "HEAD"));
    try discriminate Hm; exact Hh.
Qed.

(** Building the handler throws a TypeError exactly when [before] is truthy
    and not a function.  Otherwise only the boolean [false] turns
    [fallthrough] or [redirect] off (0, null or "" leave them on), and a
    hook is kept exactly when [before] is truthy. *)
Theorem serveStatic_options_checks (hooks : nat -> jstr -> FileInfo -> M unit)
    (options : list (jstr * jsval)) :
  let bef := prop options (js "before") in
  (serveStatic_options hooks options = Err (TypeError (js "option before must be function"))
   <-> truthy bef = true /\ (forall id, bef <> JFun id)) /\
  (forall o, serveStatic_options hooks options = Ok o ->
     (not_false (opt_fallthrough o) = false <-> prop options (js "fallthrough") = JBool false) /\
     (not_false (opt_redirect o) = false <-> prop options (js "redirect") = JBool false) /\
     (opt_before o = None <-> truthy bef = false)).
Proof.
  intro bef. unfold serveStatic_options. fold bef. clearbody bef. split.
  - split.
    + destruct (truthy bef) eqn:T; [|discriminate].
      destruct bef eqn:B; simpl; try discriminate; intros _; split; auto; congruence.
    + intros [T F]. rewrite T.
      destruct bef; simpl; try reflexivity. exfalso; exact (F id eq_refl).
  - intros o H.
    destruct (truthy bef && negb _) eqn:T; [discriminate|].
    inversion H; subst o; clear H. simpl. split; [|split].
    + destruct (prop options (js "fallthrough")) as [| |[]| | | | |]; simpl; split;
        congruence.
    + destruct (prop options (js "redirect")) as [| |[]| | | | |]; simpl; split;
        congruence.
    + destruct bef as [| |[]|n|[|c l]| | |]; simpl in *; try (split; congruence).
      destruct (n =? 0)%Z; simpl in *; split; congruence.
Qed.

Local Abbreviation hval h n := (match h_get h n with Some v => v | None => [] end).

Lemma r_get_eq f e s : r_get f e s = (Ok (hval (headers s) f), s).
Proof. unfold r_get, gets. rewrite h_get_lower. reflexivity. Qed.

Lemma r_etag_eq x e s :
  r_etag x e s
  = (Ok tt, match etag_fn (app e) with
            | Some f => if is_empty (f x) then s
                        else set_headers (h_set (headers s) (js "etag") (f x)) s
            | None => s
            end).
Proof.
  unfold r_etag, bind, asks. destruct (etag_fn (app e)) as [f|]; [|reflexivity].
  replace (negb (is_empty (typeof_length x))) with true by (destruct x; reflexivity).
  destruct (is_empty (f x)); reflexivity.
Qed.

Lemma send_prepare_eq c e s :
  send_prepare c e s =
  (Ok tt,
   let h1 := match c with
             | CStr _ => if is_empty (hval (headers s) (js "content-type"))
                         then h_set (headers s) (js "content-type") (ct_or_empty (js "html"))
                         else headers s
             | _ => headers s
             end in
   set_headers
     (match chunk_etag_input c with
      | Some x =>
          if is_empty (hval h1 (js "etag")) then
            match etag_fn (app e) with
            | Some f => if is_empty (f x) then h1 else h_set h1 (js "etag") (f x)
            | None => h1
            end
          else h1
      | None => h1
      end) s).
Proof.
  unfold send_prepare, bind. rewrite r_get_eq.
  change (hval (headers s) (js "Content-Type")) with (hval (headers s) (js "content-type")).
  destruct c as [x|bs|props]; cbv beta iota zeta;
    [destruct (is_empty (hval (headers s) (js "content-type"))); [unfold r_type, modify|]| |];
    cbv beta iota; unfold ret at 1; try (rewrite r_get_eq; cbn [headers set_headers chunk_etag_input]);
    try (destruct s; reflexivity);
    match goal with
    | |- context [is_empty (hval ?h (js "ETag"))] =>
        change (hval h (js "ETag")) with (hval h (js "etag"));
        destruct (is_empty (hval h (js "etag")));
        [rewrite r_etag_eq; destruct (etag_fn (app e)) as [f|];
           [match goal with |- context [is_empty (f ?y)] => destruct (is_empty (f y)) end|]
        |]
    end; destruct s; reflexivity.
Qed.




Lemma send_finish_eq c e s :
  send_finish c e s =
  (let s1 := if fresh (req e) then set_status 304 s else s in
   let gone := ((status s1 =? 204)%Z || (status s1 =? 304)%Z) in
   let h := if gone then h_delete (h_delete (h_delete (headers s1) (js "Content-Type"))
                                   (js "Content-Length")) (js "Transfer-Encoding")
            else headers s1 in
   r_end (if jeqb (method (req e)) (js "HEAD") then None
          else Some (if gone then CStr [] else c)) e (set_headers h s1)).
Proof.
  destruct s as [sta hs bs sn io0].
  unfold send_finish, bind, asks, gets, ret. cbv beta iota zeta.
  destruct (fresh (req e)); unfold r_setStatus, modify; cbv beta iota;
    cbn [status set_status];
    [|destruct ((sta =? 204)%Z || (sta =? 304)%Z)];
    destruct (jeqb (method (req e)) (js "HEAD")); reflexivity.
Qed.

Lemma lower_ct : toLowerCase (js "content-type") = js "content-type".
Proof. reflexivity. Qed.
Lemma lower_etag : toLowerCase (js "etag") = js "etag".
Proof. reflexivity. Qed.

Ltac hneq := let Heq := fresh in intro Heq; vm_compute in Heq; discriminate.

Lemma send_prepare_facts c e s :
  exists h, send_prepare c e s = (Ok tt, set_headers h s) /\
    (forall n, toLowerCase n <> js "content-type" -> toLowerCase n <> js "etag" ->
       h_get h n = h_get (headers s) n) /\
    h_get h (js "content-type")
      = match c with
        | CStr _ => if is_empty (hval (headers s) (js "content-type"))
                    then Some (ct_or_empty (js "html"))
                    else h_get (headers s) (js "content-type")
        | _ => h_get (headers s) (js "content-type")
        end /\
    ((is_empty (hval (headers s) (js "etag")) = false \/ chunk_etag_input c = None) ->
     h_get h (js "etag") = h_get (headers s) (js "etag")).
Proof.
  eexists. split; [apply send_prepare_eq|]. cbv zeta.
  set (h1 := match c with
             | CStr _ => if is_empty (hval (headers s) (js "content-type"))
                         then h_set (headers s) (js "content-type") (ct_or_empty (js "html"))
                         else headers s
             | _ => headers s
             end).
  assert (H1o : forall n, toLowerCase n <> js "content-type" -> h_get h1 n = h_get (headers s) n).
  { intros n Hn. unfold h1. destruct c; [destruct (is_empty _)| |]; try reflexivity.
    apply h_get_set_other. rewrite lower_ct. congruence. }
  assert (H1e : h_get h1 (js "etag") = h_get (headers s) (js "etag")) by (apply H1o; hneq).
  assert (H1c : h_get h1 (js "content-type")
                = match c with
                  | CStr _ => if is_empty (hval (headers s) (js "content-type"))
                              then Some (ct_or_empty (js "html"))
                              else h_get (headers s) (js "content-type")
                  | _ => h_get (headers s) (js "content-type")
                  end).
  { unfold h1. destruct c; [destruct (is_empty _)| |]; try reflexivity. apply h_get_set. }
  split; [|split].
  - intros n Hn1 Hn2. rewrite <- (H1o n Hn1).
    destruct (chunk_etag_input c); [|reflexivity].
    destruct (is_empty (hval h1 (js "etag"))); [|reflexivity].
    destruct (etag_fn (app e)) as [f|]; [|reflexivity].
    destruct (is_empty (f e0)); [reflexivity|].
    apply h_get_set_other. rewrite lower_etag. congruence.
  - rewrite <- H1c.
    destruct (chunk_etag_input c); [|reflexivity].
    destruct (is_empty (hval h1 (js "etag"))); [|reflexivity].
    destruct (etag_fn (app e)) as [f|]; [|reflexivity].
    destruct (is_empty (f e0)); [reflexivity|].
    apply h_get_set_other. hneq.
  - intros Hc.
    destruct (chunk_etag_input c) eqn:Ec; [|exact H1e].
    destruct Hc as [Hc|Hc]; [|discriminate].
    rewrite H1e, Hc. exact H1e.
Qed.


Lemma h_get_delete_lower (h : Headers) (n m : jstr) :
  toLowerCase n = toLowerCase m -> h_get (h_delete h n) m = None.
Proof.
  intro Heq. rewrite <- h_get_lower, <- Heq, h_get_lower. apply h_get_delete.
Qed.

Ltac hne H := let Heq := fresh in intro Heq; apply H; rewrite <- Heq; reflexivity.

Lemma send_chunk_shape c e s :
  let st' := if fresh (req e) then 304%Z else status s in
  let gone := ((st' =? 204)%Z || (st' =? 304)%Z) in
  let b' := if jeqb (method (req e)) (js "HEAD") || gone then body s
            else if chunk_truthy c then Some c else body s in
  exists h',
    send_chunk c e s
      = (Ok tt, add_sent (mkSnapshot st' h' b') (mkSt st' h' b' (sent s) (io s))) /\
    (forall n, toLowerCase n <> js "content-type" -> toLowerCase n <> js "etag" ->
       toLowerCase n <> js "content-length" -> toLowerCase n <> js "transfer-encoding" ->
       h_get h' n = h_get (headers s) n) /\
    (gone = true ->
       h_get h' (js "content-type") = None /\ h_get h' (js "content-length") = None /\
       h_get h' (js "transfer-encoding") = None) /\
    (gone = false ->
       h_get h' (js "content-type")
       = match c with
         | CStr _ => if is_empty (hval (headers s) (js "content-type"))
                     then Some (ct_or_empty (js "html"))
                     else h_get (headers s) (js "content-type")
         | _ => h_get (headers s) (js "content-type")
         end) /\
    ((is_empty (hval (headers s) (js "etag")) = false \/ chunk_etag_input c = None) ->
     h_get h' (js "etag") = h_get (headers s) (js "etag")).
Proof.
  intros st' gone b'.
  destruct (send_prepare_facts c e s) as [H [EH [Fa [Fb Fc]]]].
  exists (if gone then h_delete (h_delete (h_delete H (js "Content-Type"))
                                   (js "Content-Length")) (js "Transfer-Encoding")
          else H).
  split; [|split; [|split; [|split]]].
  - unfold send_chunk. unfold bind at 1. rewrite EH. cbv beta iota.
    rewrite send_finish_eq. subst b' gone st'. cbv zeta.
    destruct (fresh (req e)); cbn [status set_status set_headers headers];
      [|destruct ((status s =? 204)%Z || (status s =? 304)%Z)];
      destruct (jeqb (method (req e)) (js "HEAD")); cbn [orb];
      unfold r_end, modify; cbv beta iota zeta;
      try (destruct (chunk_truthy c)); reflexivity.
  - intros n N1 N2 N3 N4. destruct gone; [|apply Fa; assumption].
    rewrite !h_get_delete_other by hne N4 || hne N3 || hne N1.
    apply Fa; assumption.
  - intros G. rewrite G. split; [|split].
    + rewrite !h_get_delete_other by (hneq). apply h_get_delete_lower; reflexivity.
    + rewrite h_get_delete_other by hneq. apply h_get_delete_lower; reflexivity.
    + apply h_get_delete_lower; reflexivity.
  - intros G. rewrite G. exact Fb.
  - intros Hc. destruct gone.
    + rewrite !h_get_delete_other by hneq. apply Fc; exact Hc.
    + apply Fc; exact Hc.
Qed.


Lemma r_type_eq t e s :
  r_type t e s = (Ok tt, set_headers (h_set (headers s) (js "content-type") (ct_or_empty t)) s).
Proof. reflexivity. Qed.

Ltac fin_prelude E R :=
  split; [exact E|];
  let R1 := fresh in let R2 := fresh in let R3 := fresh in let R4 := fresh in
  let R5 := fresh in
  destruct R as [R1 [R2 [R3 [R4 R5]]]];
  refine (conj R1 (conj R2 (conj R3 (conj R4 (conj R5 _))))).

(** the classification of [send]'s body, up to [send_chunk] *)
Lemma r_send_prelude v e s :
  v <> JNull ->
  exists c s1, r_send v e s = send_chunk c e s1 /\
    body s1 = body s /\ sent s1 = sent s /\ io s1 = io s /\ status s1 = status s /\
    (forall n, toLowerCase n <> js "content-type" -> h_get (headers s1) n = h_get (headers s) n) /\
    ((exists props id, v = JObj props /\ prop props (js "read") = JFun id) ->
     chunk_etag_input c = None).
Proof.
  intro Hv.
  assert (Pre : forall t c,
    exists s1, (ct <- r_get (js "Content-Type");;
                (if is_empty ct then r_type t else ret tt);;
                send_chunk c) e s = send_chunk c e s1 /\
      body s1 = body s /\ sent s1 = sent s /\ io s1 = io s /\ status s1 = status s /\
      (forall n, toLowerCase n <> js "content-type" -> h_get (headers s1) n = h_get (headers s) n)).
  { intros t c. unfold bind at 1. rewrite r_get_eq. cbv beta iota.
    destruct (is_empty _).
    - exists (set_headers (h_set (headers s) (js "content-type") (ct_or_empty t)) s).
      split; [reflexivity|]. repeat split. intros n Hn.
      apply h_get_set_other. rewrite lower_ct. congruence.
    - exists s. split; [reflexivity|]. repeat split. }
  assert (NoReader : forall w, (forall props id, w <> JObj props \/ prop props (js "read") <> JFun id) ->
            ((exists props id, w = JObj props /\ prop props (js "read") = JFun id) ->
             chunk_etag_input (CStr (stringify w)) = None)).
  { intros w Hw [props [id [E1 E2]]]. destruct (Hw props id); contradiction. }
  assert (Same : body s = body s /\ sent s = sent s /\ io s = io s /\ status s = status s /\
            (forall n, toLowerCase n <> js "content-type" -> h_get (headers s) n = h_get (headers s) n))
    by (repeat split).
  destruct v as [| |b|n|x|bs|id|props]; try (exfalso; apply Hv; reflexivity).
  - exists (CStr []), s. fin_prelude (@eq_refl _ (r_send JUndefined e s)) Same.
    intros [? [? [E _]]]; discriminate.
  - destruct (Pre (js "application/json") (CStr (stringify (JBool b)))) as [s1 [E R]].
    exists (CStr (stringify (JBool b))), s1. fin_prelude E R. intros [? [? [E' _]]]; discriminate.
  - destruct (Pre (js "application/json") (CStr (stringify (JNum n)))) as [s1 [E R]].
    exists (CStr (stringify (JNum n))), s1. fin_prelude E R. intros [? [? [E' _]]]; discriminate.
  - exists (CStr x), s. fin_prelude (@eq_refl _ (r_send (JStr x) e s)) Same.
    intros [? [? [E _]]]; discriminate.
  - destruct (Pre (js "bin") (CBytes bs)) as [s1 [E R]].
    exists (CBytes bs), s1. fin_prelude E R. intros [? [? [E' _]]]; discriminate.
  - destruct (Pre (js "application/json") (CStr (stringify (JFun id)))) as [s1 [E R]].
    exists (CStr (stringify (JFun id))), s1. fin_prelude E R. intros [? [? [E' _]]]; discriminate.
  - simpl. destruct (prop props (js "read")) eqn:Er.
    all: try (destruct (Pre (js "application/json") (CStr (stringify (JObj props)))) as [s1 [E R]];
              exists (CStr (stringify (JObj props))), s1; fin_prelude E R;
              intros [p [i [E' E'']]]; inversion E'; subst p; congruence).
    destruct (Pre (js "bin") (CReader props)) as [s1 [E R]].
    exists (CReader props), s1. fin_prelude E R. intros _; reflexivity.
Qed.


(** an ETag header that is set is transmitted as it is *)
Theorem send_keeps_etag (v : jsval) (env : Env) (st s' : St) :
  ((exists et, h_get (headers st) (js "ETag") = Some et /\ et <> []) \/
   (exists props id, v = JObj props /\ prop props (js "read") = JFun id)) ->
  r_send v env st = (Ok tt, s') ->
  exists x, sent s' = sent st ++ [x] /\
    h_get (sn_headers x) (js "ETag") = h_get (headers st) (js "ETag").
Proof.
  intros Hc H.
  destruct (r_send_prelude v env st) as [c [s1 [E [B [S [I [St [Ho Hr]]]]]]]].
  { intro Hn; subst v. discriminate H. }
  rewrite E in H.
  destruct (send_chunk_shape c env s1) as [h' [E2 [Fa [Fg [Fn Fe]]]]].
  rewrite E2 in H. inversion H; subst s'. clear H.
  eexists. split; [cbn [sent add_sent]; rewrite S; reflexivity|].
  cbn [sn_headers]. change (h_get ?h (js "ETag")) with (h_get h (js "etag")).
  assert (Hs1 : h_get (headers s1) (js "etag") = h_get (headers st) (js "etag"))
    by (apply Ho; hneq).
  rewrite Fe, Hs1; [reflexivity|].
  destruct Hc as [[et [Het Hne]]|Hc].
  - left. rewrite Hs1. change (h_get (headers st) (js "etag") = Some et) in Het.
    rewrite Het. destruct et; [contradiction|reflexivity].
  - right. exact (Hr Hc).
Qed.

(** a HEAD request: the body slot is never assigned *)
Theorem send_head_keeps_body (v : jsval) (env : Env) (st s' : St) :
  jeqb (method (req env)) (js "HEAD") = true ->
  r_send v env st = (Ok tt, s') ->
  body s' = body st /\ exists x, sent s' = sent st ++ [x] /\ sn_body x = body st.
Proof.
  intros Hh H.
  destruct (r_send_prelude v env st) as [c [s1 [E [B [S [I [St [Ho Hr]]]]]]]].
  { intro Hn; subst v. discriminate H. }
  rewrite E in H.
  destruct (send_chunk_shape c env s1) as [h' [E2 _]].
  rewrite E2, Hh in H. cbn [orb] in H. inversion H; subst s'. clear H.
  cbn [body add_sent sent]. rewrite B. split; [reflexivity|].
  eexists. split; [rewrite S; reflexivity|reflexivity].
Qed.

(** [send(string)] on a request that is not fresh and a status other than
    204 and 304 *)
Theorem send_string_transmits (x : jstr) (env : Env) (st : St) :
  fresh (req env) = false ->
  (status st =? 204)%Z || (status st =? 304)%Z = false ->
  exists s' y,
    r_send (JStr x) env st = (Ok tt, s') /\ sent s' = sent st ++ [y] /\
    sn_status y = status st /\
    sn_body y = (if jeqb (method (req env)) (js "HEAD") || is_empty x then body st
                 else Some (CStr x)) /\
    h_get (sn_headers y) (js "Content-Type")
      = match h_get (headers st) (js "Content-Type") with
        | Some (_ :: _) => h_get (headers st) (js "Content-Type")
        | _ => Some (ct_or_empty (js "html"))
        end.
Proof.
  intros Hf Hs.
  destruct (send_chunk_shape (CStr x) env st) as [h' [E2 [Fa [Fg [Fn Fe]]]]].
  revert E2 Fn. cbv zeta. rewrite Hf, Hs. intros E2 Fn.
  eexists; eexists. split; [exact E2|]. split; [reflexivity|]. split; [reflexivity|].
  split.
  - cbn [sn_body chunk_truthy].
    destruct (jeqb (method (req env)) (js "HEAD")); [reflexivity|].
    destruct (is_empty x); reflexivity.
  - cbn [sn_headers]. change (h_get ?h (js "Content-Type")) with (h_get h (js "content-type")).
    rewrite (Fn eq_refl).
    destruct (h_get (headers st) (js "content-type")) as [[|z l]|]; reflexivity.
Qed.

(** [type(t)] with a type the lookup does not know, then [send(string)]:
    the Content-Type transmitted is the one of "html" *)
Theorem type_unknown_then_send_html (t x : jstr) (env : Env) (st : St) :
  contentType t = None ->
  fresh (req env) = false ->
  (status st =? 204)%Z || (status st =? 304)%Z = false ->
  headers_set (headers st) (js "content-type") (ct_or_empty t)
    = Ok (headers (snd (r_type t env st))) /\
  h_get (headers (snd (r_type t env st))) (js "Content-Type") = Some [] /\
  exists s' y,
    (r_type t;; r_send (JStr x)) env st = (Ok tt, s') /\ sent s' = sent st ++ [y] /\
    h_get (sn_headers y) (js "Content-Type") = Some (ct_or_empty (js "html")).
Proof.
  intros Ht Hf Hs.
  assert (Hct : ct_or_empty t = []) by (unfold ct_or_empty; rewrite Ht; reflexivity).
  split; [cbn [r_type modify snd headers set_headers]; rewrite Hct;
          apply headers_set_ok; reflexivity|].
  split; [cbn [r_type modify snd headers set_headers]; rewrite Hct;
          apply h_get_set_lower; reflexivity|].
  set (st1 := set_headers (h_set (headers st) (js "content-type") (ct_or_empty t)) st).
  assert (E : (r_type t;; r_send (JStr x)) env st = send_chunk (CStr x) env st1) by reflexivity.
  destruct (send_chunk_shape (CStr x) env st1) as [h' [E2 [Fa [Fg [Fn Fe]]]]].
  revert E2 Fn. cbv zeta. rewrite Hf. change (status st1) with (status st). rewrite Hs.
  intros E2 Fn.
  eexists; eexists. split; [rewrite E; exact E2|]. split; [reflexivity|].
  cbn [sn_headers]. change (h_get ?h (js "Content-Type")) with (h_get h (js "content-type")).
  rewrite (Fn eq_refl). unfold st1. cbn [headers set_headers].
  rewrite h_get_set. unfold ct_or_empty at 1. rewrite Ht. reflexivity.
Qed.


Lemma digits_aux_nonempty (fuel : nat) (n : Z) (acc : jstr) :
  acc <> [] -> digits_aux fuel n acc <> [].
Proof.
  revert n acc. induction fuel as [|f IH]; intros n acc Hacc; simpl; [exact Hacc|].
  destruct (n / 10 =? 0)%Z; [discriminate|]. apply IH. discriminate.
Qed.

Lemma digits_aux_S_nonempty (f : nat) (n : Z) (acc : jstr) : digits_aux (S f) n acc <> [].
Proof.
  simpl. destruct (n / 10 =? 0)%Z; [discriminate|].
  apply digits_aux_nonempty. discriminate.
Qed.

Lemma z_to_jstr_nonempty (n : Z) : z_to_jstr n <> [].
Proof.
  unfold z_to_jstr. destruct (n <? 0)%Z; [discriminate|].
  apply (digits_aux_S_nonempty 63).
Qed.

(** [sendStatus(code)] *)
Theorem sendStatus_transmits (code : Z) (env : Env) (st : St) :
  let text := match status_text code with
              | Some t => if is_empty t then z_to_jstr code else t
              | None => z_to_jstr code
              end in
  fresh (req env) = false ->
  (code =? 204)%Z || (code =? 304)%Z = false ->
  jeqb (method (req env)) (js "HEAD") = false ->
  ct_or_empty (js "txt") <> [] ->
  text <> [] /\
  exists s' y,
    r_sendStatus code env st = (Ok tt, s') /\ sent s' = sent st ++ [y] /\
    sn_status y = code /\ sn_body y = Some (CStr text) /\
    h_get (sn_headers y) (js "Content-Type") = Some (ct_or_empty (js "txt")).
Proof.
  intros text Hf Hs Hh Ht.
  assert (Hx : text <> []).
  { unfold text. destruct (status_text code) as [t|]; [|apply z_to_jstr_nonempty].
    destruct t; [apply z_to_jstr_nonempty|discriminate]. }
  split; [exact Hx|].
  set (st1 := set_headers (h_set (headers (set_status code st)) (js "content-type")
                                 (ct_or_empty (js "txt"))) (set_status code st)).
  assert (E : r_sendStatus code env st = send_chunk (CStr text) env st1) by reflexivity.
  destruct (send_chunk_shape (CStr text) env st1) as [h' [E2 [Fa [Fg [Fn Fe]]]]].
  revert E2 Fn. cbv zeta. rewrite Hf. change (status st1) with code. rewrite Hs, Hh.
  intros E2 Fn.
  eexists; eexists. split; [rewrite E; exact E2|]. split; [reflexivity|].
  split; [reflexivity|]. split.
  - cbn [sn_body orb chunk_truthy]. destruct text; [contradiction|reflexivity].
  - cbn [sn_headers]. change (h_get ?h (js "Content-Type")) with (h_get h (js "content-type")).
    rewrite (Fn eq_refl). unfold st1. cbn [headers set_headers].
    rewrite h_get_set. destruct (ct_or_empty (js "txt")); [contradiction|reflexivity].
Qed.


Lemma r_set_other (f v : jstr) e s :
  toLowerCase f <> js "content-type" ->
  r_set f v e s = (Ok tt, set_headers (h_set (headers s) (toLowerCase f) v) s).
Proof.
  intro H. unfold r_set. destruct (jeqb (toLowerCase f) (js "content-type")) eqn:E.
  - apply jeqb_true in E. contradiction.
  - reflexivity.
Qed.

(** [sendFile] up to its final [send], when both file-system calls succeed *)
Lemma sendFile_prelude (path0 : jstr) (env : Env) (st : St) (b : list Z) (fi : FileInfo) :
  let p := if startsWith path0 (js "file:") then fromFileUrl path0 else path0 in
  fs_read env p = Ok b -> fs_stat env p = Ok fi ->
  exists H1,
    r_sendFile path0 env st
      = r_send (JBytes b) env (set_headers H1 (add_io (IOStat p) (add_io (IORead p) st))) /\
    (forall n, toLowerCase n <> js "content-type" -> toLowerCase n <> js "etag" ->
       toLowerCase n <> js "last-modified" -> h_get H1 n = h_get (headers st) n) /\
    h_get H1 (js "last-modified")
      = match mtime fi with Some m => Some m | None => h_get (headers st) (js "last-modified") end /\
    h_get H1 (js "content-type") = Some (ct_or_empty (extname p)) /\
    (forall f, etag_fn (app env) = Some f -> h_get (headers st) (js "etag") = None ->
       f (EFile fi) <> [] -> h_get H1 (js "etag") = Some (f (EFile fi))).
Proof.
  intros p Hr Hs.
  set (H0 := match mtime fi with
             | Some m => h_set (headers st) (js "last-modified") m
             | None => headers st
             end).
  assert (H0o : forall n, toLowerCase n <> js "last-modified" -> h_get H0 n = h_get (headers st) n).
  { intros n Hn. unfold H0. destruct (mtime fi); [|reflexivity].
    apply h_get_set_other. change (toLowerCase (js "last-modified")) with (js "last-modified").
    congruence. }
  set (H0e := if is_empty (hval H0 (js "etag")) then
                match etag_fn (app env) with
                | Some f => if is_empty (f (EFile fi)) then H0 else h_set H0 (js "etag") (f (EFile fi))
                | None => H0
                end
              else H0).
  exists (h_set H0e (js "content-type") (ct_or_empty (extname p))).
  split; [|split; [|split; [|split]]].
  - unfold r_sendFile. fold p. unfold bind at 1, io_readFile. rewrite Hr. cbv beta iota.
    unfold bind at 1, io_stat. rewrite Hs. cbv beta iota.
    unfold bind at 1.
    assert (E1 : (match mtime fi with
                  | Some m => r_set (js "Last-Modified") m
                  | None => ret tt
                  end) env (add_io (IOStat p) (add_io (IORead p) st))
                 = (Ok tt, set_headers H0 (add_io (IOStat p) (add_io (IORead p) st)))).
    { unfold H0. destruct (mtime fi); [|reflexivity].
      rewrite r_set_other by hneq. reflexivity. }
    rewrite E1. cbv beta iota.
    unfold bind at 1. rewrite r_get_eq. cbv beta iota.
    change (hval (headers (set_headers H0 ?s)) (js "ETag")) with (hval H0 (js "etag")).
    unfold bind at 1.
    assert (E2 : (if is_empty (hval H0 (js "etag")) then r_etag (EFile fi) else ret tt) env
                   (set_headers H0 (add_io (IOStat p) (add_io (IORead p) st)))
                 = (Ok tt, set_headers H0e (add_io (IOStat p) (add_io (IORead p) st)))).
    { unfold H0e. destruct (is_empty (hval H0 (js "etag"))); [|reflexivity].
      rewrite r_etag_eq. destruct (etag_fn (app env)) as [f|]; [|reflexivity].
      destruct (is_empty (f (EFile fi))); reflexivity. }
    rewrite E2. cbv beta iota. unfold bind at 1. rewrite r_type_eq. cbv beta iota.
    reflexivity.
  - intros n N1 N2 N3. rewrite h_get_set_other by (rewrite lower_ct; congruence).
    rewrite <- (H0o n N3). unfold H0e.
    destruct (is_empty (hval H0 (js "etag"))); [|reflexivity].
    destruct (etag_fn (app env)) as [f|]; [|reflexivity].
    destruct (is_empty (f (EFile fi))); [reflexivity|].
    apply h_get_set_other. rewrite lower_etag. congruence.
  - rewrite h_get_set_other by hneq.
    assert (Hl : h_get H0e (js "last-modified") = h_get H0 (js "last-modified")).
    { unfold H0e. destruct (is_empty (hval H0 (js "etag"))); [|reflexivity].
      destruct (etag_fn (app env)) as [f|]; [|reflexivity].
      destruct (is_empty (f (EFile fi))); [reflexivity|].
      apply h_get_set_other. hneq. }
    rewrite Hl. unfold H0. destruct (mtime fi); [apply h_get_set|reflexivity].
  - apply h_get_set.
  - intros f Hf Hn Hne. rewrite h_get_set_other by hneq.
    unfold H0e. rewrite (H0o (js "etag")) by hneq. rewrite Hn, Hf. cbn [is_empty].
    destruct (f (EFile fi)); [contradiction|]. apply h_get_set.
Qed.


Lemma r_send_ok (v : jsval) e s : v <> JNull -> exists s', r_send v e s = (Ok tt, s').
Proof.
  intro Hv. destruct (r_send_prelude v e s Hv) as [c [s1 [E _]]].
  destruct (send_chunk_shape c e s1) as [h' [E2 _]].
  rewrite E, E2. eexists; reflexivity.
Qed.

Lemma sendFile_read_error (path0 : jstr) (env : Env) (st : St) (e : jserror) :
  let p := if startsWith path0 (js "file:") then fromFileUrl path0 else path0 in
  fs_read env p = Err e -> r_sendFile path0 env st = (Err e, add_io (IORead p) st).
Proof.
  intros p Hr. unfold r_sendFile. fold p. unfold bind at 1, io_readFile. rewrite Hr.
  reflexivity.
Qed.

Lemma sendFile_stat_error (path0 : jstr) (env : Env) (st : St) (b : list Z) (e : jserror) :
  let p := if startsWith path0 (js "file:") then fromFileUrl path0 else path0 in
  fs_read env p = Ok b -> fs_stat env p = Err e ->
  r_sendFile path0 env st = (Err e, add_io (IOStat p) (add_io (IORead p) st)).
Proof.
  intros p Hr Hs. unfold r_sendFile. fold p. unfold bind at 1, io_readFile. rewrite Hr.
  cbv beta iota. unfold bind at 1, io_stat. rewrite Hs. reflexivity.
Qed.

(** a transfer that returns has transmitted once, with the headers other
    than Content-Type, ETag, Last-Modified, Content-Length and
    Transfer-Encoding as they were *)
Lemma sendFile_ok_keeps (path0 : jstr) (env : Env) (st s' : St) :
  r_sendFile path0 env st = (Ok tt, s') ->
  exists y, sent s' = sent st ++ [y] /\
    forall n, toLowerCase n <> js "content-type" -> toLowerCase n <> js "etag" ->
      toLowerCase n <> js "last-modified" -> toLowerCase n <> js "content-length" ->
      toLowerCase n <> js "transfer-encoding" ->
      h_get (sn_headers y) n = h_get (headers st) n.
Proof.
  intro H.
  set (p := if startsWith path0 (js "file:") then fromFileUrl path0 else path0).
  destruct (fs_read env p) as [b|e] eqn:Hr.
  2: { rewrite (sendFile_read_error path0 env st e Hr) in H. discriminate H. }
  destruct (fs_stat env p) as [fi|e] eqn:Hs.
  2: { rewrite (sendFile_stat_error path0 env st b e Hr Hs) in H. discriminate H. }
  destruct (sendFile_prelude path0 env st b fi Hr Hs) as [H1 [E [F1 _]]].
  rewrite E in H. fold p in H.
  destruct (r_send_prelude (JBytes b) env
              (set_headers H1 (add_io (IOStat p) (add_io (IORead p) st)))) as [c [s2 [E2 [B [S [I [St [Ho Hrd]]]]]]]].
  { discriminate. }
  rewrite E2 in H.
  destruct (send_chunk_shape c env s2) as [h' [E3 [Fa _]]].
  rewrite E3 in H. inversion H; subst s'. clear H.
  eexists. split; [cbn [sent add_sent]; rewrite S; reflexivity|].
  intros n N1 N2 N3 N4 N5. cbn [sn_headers].
  rewrite (Fa n N1 N2 N4 N5), (Ho n N1). apply F1; assumption.
Qed.

(** [sendFile(path)]: the errors it throws *)
Theorem sendFile_io_errors (path0 : jstr) (env : Env) (st : St) :
  let p := if startsWith path0 (js "file:") then fromFileUrl path0 else path0 in
  (forall e, fs_read env p = Err e -> r_sendFile path0 env st = (Err e, add_io (IORead p) st)) /\
  (forall b e, fs_read env p = Ok b -> fs_stat env p = Err e ->
     r_sendFile path0 env st = (Err e, add_io (IOStat p) (add_io (IORead p) st))) /\
  (forall e s', r_sendFile path0 env st = (Err e, s') ->
     fs_read env p = Err e \/ fs_stat env p = Err e).
Proof.
  intro p. split; [|split].
  - intros e Hr. exact (sendFile_read_error path0 env st e Hr).
  - intros b e Hr Hs. exact (sendFile_stat_error path0 env st b e Hr Hs).
  - intros e s' H.
    destruct (fs_read env p) as [b|e'] eqn:Hr.
    2: { rewrite (sendFile_read_error path0 env st e' Hr) in H. inversion H. left; reflexivity. }
    destruct (fs_stat env p) as [fi|e'] eqn:Hs.
    2: { rewrite (sendFile_stat_error path0 env st b e' Hr Hs) in H. inversion H.
         right; reflexivity. }
    destruct (sendFile_prelude path0 env st b fi Hr Hs) as [H1 [E _]].
    rewrite E in H. fold p in H.
    destruct (r_send_ok (JBytes b) env
                (set_headers H1 (add_io (IOStat p) (add_io (IORead p) st)))) as [s2 E2];
      [discriminate|].
    rewrite E2 in H. discriminate H.
Qed.

(** [sendFile(path)] of a readable file *)
Theorem sendFile_success_transmits (path0 : jstr) (env : Env) (st : St) (b : list Z)
    (fi : FileInfo) :
  let p := if startsWith path0 (js "file:") then fromFileUrl path0 else path0 in
  fs_read env p = Ok b -> fs_stat env p = Ok fi ->
  fresh (req env) = false ->
  (status st =? 204)%Z || (status st =? 304)%Z = false ->
  jeqb (method (req env)) (js "HEAD") = false ->
  exists s' y,
    r_sendFile path0 env st = (Ok tt, s') /\ sent s' = sent st ++ [y] /\
    io s' = io st ++ [IORead p; IOStat p] /\
    sn_status y = status st /\ sn_body y = Some (CBytes b) /\
    h_get (sn_headers y) (js "Last-Modified")
      = match mtime fi with
        | Some m => Some m
        | None => h_get (headers st) (js "Last-Modified")
        end /\
    h_get (sn_headers y) (js "Content-Type")
      = Some (if is_empty (ct_or_empty (extname p)) then ct_or_empty (js "bin")
              else ct_or_empty (extname p)) /\
    (forall f, etag_fn (app env) = Some f -> h_get (headers st) (js "ETag") = None ->
       f (EFile fi) <> [] -> h_get (sn_headers y) (js "ETag") = Some (f (EFile fi))).
Proof.
  intros p Hr Hs Hf Hst Hh.
  destruct (sendFile_prelude path0 env st b fi Hr Hs) as [H1 [E [F1 [Flm [Fct Fet]]]]].
  fold p in E.
  set (s1 := set_headers H1 (add_io (IOStat p) (add_io (IORead p) st))).
  set (s2 := if is_empty (ct_or_empty (extname p))
             then set_headers (h_set H1 (js "content-type") (ct_or_empty (js "bin"))) s1
             else s1).
  assert (E2 : r_send (JBytes b) env s1 = send_chunk (CBytes b) env s2).
  { unfold r_send, send_binary. unfold bind at 1. rewrite r_get_eq.
    change (hval (headers s1) (js "Content-Type")) with (hval H1 (js "content-type")).
    rewrite Fct. fold p. unfold s2. destruct (is_empty (ct_or_empty (extname p))); reflexivity. }
  assert (H2o : forall n, toLowerCase n <> js "content-type" ->
                  h_get (headers s2) n = h_get H1 n).
  { intros n Hn. unfold s2. destruct (is_empty _); [|reflexivity].
    apply h_get_set_other. rewrite lower_ct. congruence. }
  assert (Hs2 : sent s2 = sent st /\ io s2 = io st ++ [IORead p; IOStat p] /\
                status s2 = status st).
  { unfold s2, s1. destruct (is_empty (ct_or_empty (extname p))); cbn;
      rewrite <- app_assoc; repeat split. }
  destruct Hs2 as [Hs2 [Hi2 Ht2]].
  destruct (send_chunk_shape (CBytes b) env s2) as [h' [E3 [Fa [Fg [Fn Fe]]]]].
  revert E3 Fn. cbv zeta. rewrite Hf, Ht2, Hst, Hh. intros E3 Fn.
  eexists; eexists. split; [rewrite E; exact (eq_trans E2 E3)|].
  split; [cbn [sent add_sent]; rewrite Hs2; reflexivity|].
  split; [cbn [io add_sent]; exact Hi2|].
  split; [reflexivity|]. split; [reflexivity|]. cbn [sn_headers].
  split; [|split].
  - change (h_get ?h (js "Last-Modified")) with (h_get h (js "last-modified")).
    rewrite Fa by hneq. rewrite H2o by hneq. exact Flm.
  - change (h_get ?h (js "Content-Type")) with (h_get h (js "content-type")).
    rewrite (Fn eq_refl). unfold s2.
    destruct (is_empty (ct_or_empty (extname p))) eqn:Ee.
    + apply h_get_set.
    + exact Fct.
  - intros f Hfn Hn Hne.
    change (h_get ?h (js "ETag")) with (h_get h (js "etag")).
    change (h_get (headers st) (js "ETag")) with (h_get (headers st) (js "etag")) in Hn.
    assert (Het : h_get (headers s2) (js "etag") = Some (f (EFile fi)))
      by (rewrite H2o by hneq; apply Fet; assumption).
    rewrite Fe, Het; [reflexivity|]. left. rewrite Het.
    destruct (f (EFile fi)); [contradiction|reflexivity].
Qed.

(** [download] that succeeds *)
Theorem download_success_keeps_disposition (path : jstr) (filename : option jstr)
    (env : Env) (st s' : St) :
  let name := match filename with
              | Some f => if is_empty f then path else f
              | None => path
              end in
  r_download path filename env st = (Ok tt, s') ->
  exists x, sent s' = sent st ++ [x] /\
    h_get (sn_headers x) (js "Content-Disposition")
      = Some (contentDisposition (js "attachment") (basename name)).
Proof.
  intros name H.
  set (st1 := set_headers (h_set (headers st) (js "content-disposition")
                            (contentDisposition (js "attachment") (basename name))) st).
  assert (E : r_download path filename env st
              = catch (r_sendFile path) (fun err => r_unset (js "Content-Disposition");; throw err)
                  env st1) by reflexivity.
  rewrite E in H. unfold catch in H.
  destruct (r_sendFile path env st1) as [[[]|x] s1] eqn:Es.
  - inversion H; subst s1. clear H.
    destruct (sendFile_ok_keeps path env st1 s' Es) as [y [Hy Hk]].
    exists y. split; [exact Hy|].
    rewrite Hk by hneq. unfold st1. cbn [headers set_headers].
    change (h_get ?h (js "Content-Disposition")) with (h_get h (js "content-disposition")).
    apply h_get_set.
  - discriminate H.
Qed.


(** [attachment(filename)] *)
Theorem attachment_sets (filename : jstr) (env : Env) (st : St) :
  let s' := snd (r_attachment filename env st) in
  fst (r_attachment filename env st) = Ok tt /\
  h_get (headers s') (js "Content-Disposition")
    = Some (contentDisposition (js "attachment") filename) /\
  h_get (headers s') (js "Content-Type")
    = (if is_empty filename then h_get (headers st) (js "Content-Type")
       else Some (ct_or_empty (extname filename))) /\
  (forall n, toLowerCase n <> js "content-type" -> toLowerCase n <> js "content-disposition" ->
     h_get (headers s') n = h_get (headers st) n).
Proof.
  cbv zeta.
  assert (E : r_attachment filename env st
    = (Ok tt, set_headers
                (h_set (if is_empty filename then headers st
                        else h_set (headers st) (js "content-type") (ct_or_empty (extname filename)))
                   (js "content-disposition") (contentDisposition (js "attachment") filename)) st)).
  { unfold r_attachment, bind at 1.
    destruct (is_empty filename); cbn [negb].
    - unfold ret. rewrite r_set_other by hneq. reflexivity.
    - rewrite r_type_eq. cbv beta iota. rewrite r_set_other by hneq. reflexivity. }
  rewrite E. cbn [fst snd headers set_headers].
  change (h_get ?h (js "Content-Disposition")) with (h_get h (js "content-disposition")).
  change (h_get ?h (js "Content-Type")) with (h_get h (js "content-type")).
  split; [reflexivity|]. split; [apply h_get_set|]. split.
  - rewrite h_get_set_other by hneq.
    destruct (is_empty filename); [reflexivity|]. apply h_get_set.
  - intros n N1 N2.
    rewrite h_get_set_other by (intro Heq; apply N2; rewrite <- Heq; reflexivity).
    destruct (is_empty filename); [reflexivity|].
    apply h_get_set_other. rewrite lower_ct. congruence.
Qed.

(** [jsonp] with a callback that holds no character of the safe charset *)
Theorem jsonp_unsafe_callback_emptied (v : jsval) (env : Env) (st : St) (cb : jstr) :
  jsonp_callback (req env) (app env) = Some (QStr cb) -> cb <> [] ->
  (forall c, In c cb -> cb_allowed c = false) ->
  fst (r_jsonp_body v env st)
  = Ok (js "/**/ typeof  === 'function' && (" ++ escape_separators (stringify v) ++ js ");").
Proof.
  intros Hcb Hne Hno.
  assert (Hs : sanitize_callback cb = []).
  { unfold sanitize_callback. clear Hcb Hne. induction cb as [|c t IH]; [reflexivity|].
    simpl. rewrite (Hno c (or_introl eq_refl)).
    apply IH. intros c' Hc'. apply Hno. right; exact Hc'. }
  unfold r_jsonp_body, bind, asks. rewrite Hcb.
  destruct cb as [|z cb]; [contradiction|]. cbn [is_empty negb]. unfold r_set.
  cbn [fst]. rewrite Hs. unfold jsonp_wrap. reflexivity.
Qed.


End Proofs2.

(** * Concrete runs *)

Definition get_env : Env := ex_env (ex_request (js "GET") false).
Definition fresh_env : Env := ex_env (ex_request (js "GET") true).

Definition dir_info : FileInfo := mkFileInfo true 4096 None.
Definition file_info : FileInfo := mkFileInfo false 10 (Some (js "Thu, 01 Jan 1970 00:00:00 GMT")).

(** [send(42)] sends the JSON text "42" with a JSON Content-Type *)
Lemma send_42_json :
  sent (snd (r_send (JNum 42) get_env st0))
  = [mkSnapshot 200 [(js "content-type", js "application/json; charset=utf-8")]
                (Some (CStr (js "42")))].
Proof. vm_compute. reflexivity. Qed.

(** [format({ json: fn1, html: fn2 })] with [Accept: application/xml] *)
Lemma format_406_types :
  fst (r_format [(js "json", 1%nat); (js "html", 2%nat)]
         (ex_env (mkRequest (js "GET") false (Some (js "application/xml")) []
                            (js "/") (mkParsedURL (js "/") None [])))
         st0)
  = Ok (CallNext (HttpError 406 (js "Not Acceptable")
                            [js "application/json"; js "text/html"])).
Proof. vm_compute. reflexivity. Qed.

(** C1: a second [send] on the same exchange transmits again, silently *)
Lemma send_twice_transmits_twice :
  fst ((r_send (JStr (js "a"));; r_send (JStr (js "b"))) get_env st0) = Ok tt /\
  List.length (sent (snd ((r_send (JStr (js "a"));; r_send (JStr (js "b"))) get_env st0)))
  = 2%nat.
Proof. vm_compute. split; reflexivity. Qed.

Lemma end_and_send_witness :
  r_send (JStr (js "a")) get_env st0 = (Ok tt, snd (r_send (JStr (js "a")) get_env st0)) /\
  exists x, sent (snd (r_send (JStr (js "a")) get_env st0)) = sent st0 ++ [x].
Proof.
  assert (H : r_send (JStr (js "a")) get_env st0
              = (Ok tt, snd (r_send (JStr (js "a")) get_env st0)))
    by (vm_compute; reflexivity).
  split; [exact H|].
  exact (proj2 (end_and_send_transmit_every_call None (JStr (js "a")) get_env st0) _ H).
Defined.

(** C3: on a fresh request, a body slot assigned before [send] is what the
    304 transmits *)
Theorem send_fresh_keeps_stale_body :
  sent (snd (r_send (JStr (js "hello")) fresh_env
                    (mkSt 200 [] (Some (CStr (js "stale"))) [] [])))
  = [mkSnapshot 304 [] (Some (CStr (js "stale")))].
Proof. vm_compute. reflexivity. Qed.

(** C4 at a download whose file cannot be read *)
Lemma download_failure_witness :
  r_download (js "/x/report.pdf") None get_env st0
    = (Err (IOError (js "ENOENT")), snd (r_download (js "/x/report.pdf") None get_env st0)) /\
  h_get (headers (snd (r_download (js "/x/report.pdf") None get_env st0)))
        (js "Content-Disposition") = None.
Proof.
  assert (H : r_download (js "/x/report.pdf") None get_env st0
              = (Err (IOError (js "ENOENT")),
                 snd (r_download (js "/x/report.pdf") None get_env st0)))
    by (vm_compute; reflexivity).
  split; [exact H|].
  destruct (download_failure_unsets_disposition _ _ _ _ _ _ H) as [s1 [_ [_ Hn]]].
  exact Hn.
Defined.

Definition etag_env : Env :=
  mkEnv (ex_request (js "GET") false) (mkApp (Some (fun _ => js "W/1")) (js "callback"))
        (fun _ => Err (IOError (js "ENOENT"))) (fun _ => Err (IOError (js "ENOENT"))).

(** C5: a [Deno.FileInfo] has no [length], and still the ETag function is
    consulted and the header set *)
Lemma etag_fileinfo_sets_header :
  h_get (headers (snd (r_etag (EFile file_info) etag_env st0))) (js "ETag")
  = Some (js "W/1").
Proof. vm_compute. reflexivity. Qed.

Lemma etag_witness :
  etag_fn (app etag_env) = Some (fun _ => js "W/1") /\
  r_etag (EFile file_info) etag_env st0
  = (Ok tt, set_headers (h_set (headers st0) (js "etag") (js "W/1")) st0).
Proof.
  split; [reflexivity|].
  exact (proj2 (etag_sets_when_fn_nonempty (EFile file_info) etag_env st0) _ eq_refl).
Defined.

Definition html_env : Env :=
  ex_env (mkRequest (js "GET") false (Some (js "text/html")) []
                    (js "/") (mkParsedURL (js "/") None [])).

Lemma format_witness :
  format_key (req html_env) (format_keys [(js "json", 1%nat); (js "html", 2%nat)])
    = Some (js "html") /\
  r_format [(js "json", 1%nat); (js "html", 2%nat)] html_env st0
  = (Ok (CallHandler 2),
     set_headers (h_set (vary (headers st0) (js "Accept")) (js "content-type")
                        (ct_or_empty (normalizeType (js "html")))) st0).
Proof.
  split; [vm_compute; reflexivity|].
  apply (proj1 (format_negotiates [(js "json", 1%nat); (js "html", 2%nat)] html_env st0)).
  - vm_compute. reflexivity.
  - discriminate.
  - vm_compute. reflexivity.
Defined.

(** C7: no callback and a Content-Type already set: no nosniff header *)
Lemma jsonp_preset_type_no_nosniff :
  h_get (headers (snd (r_jsonp_body (JNum 1) get_env
                         (mkSt 200 [(js "content-type", js "text/plain; charset=utf-8")]
                               None [] []))))
        (js "X-Content-Type-Options") = None.
Proof. vm_compute. reflexivity. Qed.

Definition jsonp_env : Env :=
  ex_env (mkRequest (js "GET") false None
                    [(js "callback", QArr [QStr (js "cb()<x>"); QStr (js "other")])]
                    (js "/") (mkParsedURL (js "/") None [])).

Lemma jsonp_witness :
  fst (r_jsonp_body (JStr ([97; 8232]%Z)) jsonp_env st0)
  = Ok (js "/**/ typeof cbx === 'function' && cbx(" ++ dq ++ js "a\u2028" ++ dq ++ js ");").
Proof.
  destruct (proj1 (jsonp_callback_or_json (JStr ([97; 8232]%Z)) jsonp_env st0)
                  (js "cb()<x>") eq_refl ltac:(discriminate)) as [H _].
  rewrite H. vm_compute. reflexivity.
Defined.

Definition static_env (pathname original : jstr) : Env :=
  mkEnv (mkRequest (js "GET") false None [] pathname (mkParsedURL original None (js "http://localhost")))
        (mkApp None (js "callback"))
        (fun p => if jeqb p (js "/srv/www/assets") || jeqb p (js "/srv/www") then Ok dir_info
                  else Err (IOError (js "ENOENT")))
        (fun _ => Err (IOError (js "ENOENT"))).

Definition default_opts : SSOptions := mkSSOptions None None None.

Lemma serveStatic_mount_root_witness :
  ss_path (req (static_env (js "/") (js "/static"))) = [] /\
  serveStatic (js "/srv/www") default_opts (static_env (js "/") (js "/static")) st0
  = ss_handle_path (js "/srv/www") true true None [] (static_env (js "/") (js "/static")) st0.
Proof.
  apply (serveStatic_mount_root_path (js "/srv/www") default_opts).
  - reflexivity.
  - reflexivity.
  - discriminate.
Defined.

(** C9: [GET /assets] where /srv/www/assets is a directory *)
Lemma serveStatic_redirect_witness :
  serveStatic (js "/srv/www") default_opts (static_env (js "/assets") (js "/assets")) st0
  = (Err (TypeError (js "Cannot read properties of undefined (reading 'req')")),
     add_io (IOStat (js "/srv/www/assets")) st0).
Proof.
  rewrite (serveStatic_directory_redirect_throws (js "/srv/www") default_opts
             (static_env (js "/assets") (js "/assets")) st0 dir_info);
    vm_compute; reflexivity.
Defined.



(** ** Runs of the rest of the code *)

Definition post_env : Env := ex_env (ex_request (js "POST") false).
Definition head_env : Env := ex_env (ex_request (js "HEAD") false).

(** a readable file: every path stats as [file_info] and reads as "hi" *)
Definition file_env : Env :=
  mkEnv (ex_request (js "GET") false) (mkApp (Some (fun _ => js "W/f")) (js "callback"))
        (fun _ => Ok file_info) (fun _ => Ok [104; 105]%Z).

Definition static_file_env : Env :=
  mkEnv (mkRequest (js "GET") false None [] (js "/a.txt")
                   (mkParsedURL (js "/a.txt") None (js "http://localhost")))
        (mkApp None (js "callback"))
        (fun _ => Ok file_info) (fun _ => Ok [104; 105]%Z).

Definition unsafe_cb_env : Env :=
  ex_env (mkRequest (js "GET") false None [(js "callback", QStr (js "()<>"))]
                    (js "/") (mkParsedURL (js "/") None [])).

Lemma collapseLeadingSlashes_spec_witness :
  collapseLeadingSlashes (js "/a") = js "/a".
Proof.
  apply (proj2 (proj2 (proj2 (collapseLeadingSlashes_spec (js "/a"))))).
  vm_compute. lia.
Defined.

Lemma serveStatic_method_not_allowed_witness :
  serveStatic (js "/srv/www") (mkSSOptions (Some false) None None) post_env st0
  = (Ok ODone,
     add_sent (mkSnapshot 405 (h_set [] (js "allow") (js "GET, HEAD")) None)
              (set_headers (h_set [] (js "allow") (js "GET, HEAD")) (set_status 405 st0))).
Proof.
  rewrite (serveStatic_method_not_allowed (js "/srv/www") (mkSSOptions (Some false) None None)
             post_env st0); vm_compute; reflexivity.
Defined.

Lemma serveStatic_stat_error_witness :
  serveStatic (js "/srv/www") (mkSSOptions (Some false) None None)
              (static_env (js "/missing") (js "/missing")) st0
  = (Ok (ONextErr (IOError (js "ENOENT"))), add_io (IOStat (js "/srv/www/missing")) st0).
Proof.
  rewrite (serveStatic_stat_error (js "/srv/www") (mkSSOptions (Some false) None None)
             (static_env (js "/missing") (js "/missing")) st0 (IOError (js "ENOENT")));
    vm_compute; reflexivity.
Defined.

Lemma serveStatic_directory_not_found_witness :
  serveStatic (js "/srv/www") (mkSSOptions (Some false) (Some false) None)
              (static_env (js "/assets") (js "/assets")) st0
  = (Ok (ONextErr (HttpError 404 (js "Not Found") [])),
     add_io (IOStat (js "/srv/www/assets")) st0).
Proof.
  rewrite (serveStatic_directory_not_found (js "/srv/www") (mkSSOptions (Some false) (Some false) None)
             (static_env (js "/assets") (js "/assets")) st0 dir_info).
  - vm_compute. reflexivity.
  - vm_compute. reflexivity.
  - vm_compute. reflexivity.
  - reflexivity.
  - left. reflexivity.
Defined.

Lemma serveStatic_file_outcome_witness :
  serveStatic (js "/srv/www") default_opts static_file_env st0
  = (Ok ODone, snd (r_sendFile (js "/srv/www/a.txt") static_file_env
                               (add_io (IOStat (js "/srv/www/a.txt")) st0))).
Proof.
  rewrite (serveStatic_file_outcome (js "/srv/www") default_opts static_file_env st0 file_info).
  - vm_compute. reflexivity.
  - vm_compute. reflexivity.
  - vm_compute. reflexivity.
  - reflexivity.
  - reflexivity.
Defined.

Lemma serveStatic_options_checks_witness :
  serveStatic_options (fun _ _ _ => ret tt) [(js "before", JStr (js "x"))]
    = Err (TypeError (js "option before must be function")).
Proof.
  apply (proj2 (proj1 (serveStatic_options_checks (fun _ _ _ => ret tt)
                         [(js "before", JStr (js "x"))]))).
  split; [reflexivity|]. intros id; discriminate.
Defined.

Lemma send_keeps_etag_witness :
  exists x, sent (snd (r_send (JStr (js "a")) get_env (mkSt 200 [(js "etag", js "W/e")] None [] [])))
            = [] ++ [x] /\
    h_get (sn_headers x) (js "ETag") = Some (js "W/e").
Proof.
  apply (send_keeps_etag (JStr (js "a")) get_env (mkSt 200 [(js "etag", js "W/e")] None [] [])).
  - left. exists (js "W/e"). split; [reflexivity|discriminate].
  - vm_compute. reflexivity.
Defined.

Lemma send_head_keeps_body_witness :
  body (snd (r_send (JStr (js "a")) head_env st0)) = None /\
  exists x, sent (snd (r_send (JStr (js "a")) head_env st0)) = [] ++ [x] /\ sn_body x = None.
Proof.
  apply (send_head_keeps_body (JStr (js "a")) head_env st0).
  - reflexivity.
  - vm_compute. reflexivity.
Defined.

Lemma send_string_transmits_witness :
  exists s' y,
    r_send (JStr (js "a")) get_env st0 = (Ok tt, s') /\ sent s' = [] ++ [y] /\
    sn_status y = 200%Z /\ sn_body y = Some (CStr (js "a")) /\
    h_get (sn_headers y) (js "Content-Type") = Some (ct_or_empty (js "html")).
Proof.
  apply (send_string_transmits (js "a") get_env st0); reflexivity.
Defined.

Lemma type_unknown_then_send_html_witness :
  h_get (headers (snd (r_type (js "zzz") get_env st0))) (js "Content-Type") = Some [] /\
  exists s' y,
    (r_type (js "zzz");; r_send (JStr (js "a"))) get_env st0 = (Ok tt, s') /\
    sent s' = [] ++ [y] /\
    h_get (sn_headers y) (js "Content-Type") = Some (ct_or_empty (js "html")).
Proof.
  refine (proj2 (type_unknown_then_send_html (js "zzz") (js "a") get_env st0 _ _ _));
    vm_compute; reflexivity.
Defined.

Lemma sendStatus_transmits_witness :
  js "Not Found" <> [] /\
  exists s' y,
    r_sendStatus 404 get_env st0 = (Ok tt, s') /\ sent s' = [] ++ [y] /\
    sn_status y = 404%Z /\ sn_body y = Some (CStr (js "Not Found")) /\
    h_get (sn_headers y) (js "Content-Type") = Some (ct_or_empty (js "txt")).
Proof.
  assert (Ht : ct_or_empty (js "txt") <> []) by (vm_compute; discriminate).
  exact (sendStatus_transmits 404 get_env st0 eq_refl eq_refl eq_refl Ht).
Defined.

Lemma sendFile_io_errors_witness :
  r_sendFile (js "/x/a.txt") get_env st0
  = (Err (IOError (js "ENOENT")), add_io (IORead (js "/x/a.txt")) st0).
Proof.
  apply (proj1 (sendFile_io_errors (js "/x/a.txt") get_env st0)). reflexivity.
Defined.

Lemma sendFile_success_transmits_witness :
  exists s' y,
    r_sendFile (js "/x/a.txt") file_env st0 = (Ok tt, s') /\ sent s' = [] ++ [y] /\
    io s' = [] ++ [IORead (js "/x/a.txt"); IOStat (js "/x/a.txt")] /\
    sn_status y = 200%Z /\ sn_body y = Some (CBytes [104; 105]%Z) /\
    h_get (sn_headers y) (js "Last-Modified") = mtime file_info /\
    h_get (sn_headers y) (js "Content-Type")
      = Some (if is_empty (ct_or_empty (js "/x/a.txt")) then ct_or_empty (js "bin")
              else ct_or_empty (js "/x/a.txt")) /\
    (forall f, etag_fn (app file_env) = Some f -> h_get [] (js "ETag") = None ->
       f (EFile file_info) <> [] -> h_get (sn_headers y) (js "ETag") = Some (f (EFile file_info))).
Proof.
  exact (sendFile_success_transmits (js "/x/a.txt") file_env st0 [104; 105]%Z file_info
           eq_refl eq_refl eq_refl eq_refl eq_refl).
Defined.

Lemma download_success_keeps_disposition_witness :
  exists x, sent (snd (r_download (js "/x/a.txt") None file_env st0)) = [] ++ [x] /\
    h_get (sn_headers x) (js "Content-Disposition")
      = Some (contentDisposition (js "attachment") (js "/x/a.txt")).
Proof.
  assert (H : r_download (js "/x/a.txt") None file_env st0
              = (Ok tt, snd (r_download (js "/x/a.txt") None file_env st0)))
    by (vm_compute; reflexivity).
  exact (download_success_keeps_disposition (js "/x/a.txt") None file_env st0 _ H).
Defined.

Lemma attachment_sets_witness :
  h_get (headers (snd (r_attachment (js "a.json") get_env st0))) (js "Content-Type")
  = Some (ct_or_empty (js "a.json")).
Proof.
  exact (proj1 (proj2 (proj2 (attachment_sets (js "a.json") get_env st0)))).
Defined.

Lemma jsonp_unsafe_callback_emptied_witness :
  fst (r_jsonp_body (JNum 1) unsafe_cb_env st0)
  = Ok (js "/**/ typeof  === 'function' && (" ++ escape_separators (stringify (JNum 1)) ++ js ");").
Proof.
  apply (jsonp_unsafe_callback_emptied (JNum 1) unsafe_cb_env st0 (js "()<>")).
  - reflexivity.
  - discriminate.
  - intros c Hc. repeat (destruct Hc as [Hc|Hc]; [subst c; reflexivity|]). destruct Hc.
Defined.
